(** * Abbreviation tracking and activation context (src/abbreviation/index.ts)

    A shallow embedding of the abbreviation tracker of the Emmet extension:
    the stop-condition evaluator [shouldStopTracking], the boundary detector
    [startAbbreviationTracking], the context resolver [getActivationContext]
    and the two editor event handlers of [initAbbreviationTracker].

    JavaScript strings are sequences of UTF-16 code units, offsets into the
    buffer are integers, [undefined] is [None].  The collaborators that the
    module imports (structural parsers, syntax classifier, tracker registry)
    are the fields of the interface [Host]. *)

From Stdlib Require Import ZArith NArith List Bool Lia String Ascii.
Import ListNotations.
Open Scope Z_scope.

(** ** JavaScript strings *)

Module JS.

(** A UTF-16 code unit. *)
Definition char := N.
Definition jsstring := list char.

Definition ch (a : ascii) : char := N_of_ascii a.

(** A string literal of the source (ASCII only). *)
Definition lit (s : string) : jsstring := map N_of_ascii (list_ascii_of_string s).

(** [s.length] *)
Definition length (s : jsstring) : Z := Z.of_nat (List.length s).

(** [s[i]]: the one-unit string at index [i], [undefined] out of range. *)
Definition charAt (s : jsstring) (i : Z) : option char :=
  if i <? 0 then None else nth_error s (Z.to_nat i).

Fixpoint eqb (a b : jsstring) : bool :=
  match a, b with
  | [], [] => true
  | x :: a', y :: b' => N.eqb x y && eqb a' b'
  | _, _ => false
  end.

(** [a === b] where either side may be [undefined]. *)
Definition strictEq (a b : option jsstring) : bool :=
  match a, b with
  | Some x, Some y => eqb x y
  | None, None => true
  | _, _ => false
  end.

Fixpoint startsWith (s sub : jsstring) : bool :=
  match sub, s with
  | [], _ => true
  | y :: sub', x :: s' => N.eqb x y && startsWith s' sub'
  | _ :: _, [] => false
  end.

(** [s.includes(sub)] *)
Fixpoint includes (s sub : jsstring) : bool :=
  startsWith s sub ||
  match s with
  | [] => false
  | _ :: s' => includes s' sub
  end.

(** [s.slice(from, to)]: negative indexes count from the end, both ends
    are clamped to the string. *)
Definition clampIndex (len i : Z) : Z :=
  if i <? 0 then Z.max (len + i) 0 else Z.min i len.

Definition slice (s : jsstring) (from to : Z) : jsstring :=
  let len := length s in
  let a := clampIndex len from in
  let b := clampIndex len to in
  firstn (Z.to_nat (b - a)) (skipn (Z.to_nat a) s).

(** [s.slice(from)] *)
Definition sliceFrom (s : jsstring) (from : Z) : jsstring :=
  slice s from (length s).

(** The regular expression class [\s]; [trim] strips the same set
    (WhiteSpace and LineTerminator of the language). *)
Definition isSpace (c : char) : bool :=
  ((9 <=? c) && (c <=? 13) || N.eqb c 32 || N.eqb c 160 || N.eqb c 5760
   || (8192 <=? c) && (c <=? 8202) || N.eqb c 8232 || N.eqb c 8233
   || N.eqb c 8239 || N.eqb c 8287 || N.eqb c 12288 || N.eqb c 65279)%N.

Fixpoint trimStart (s : jsstring) : jsstring :=
  match s with
  | c :: s' => if isSpace c then trimStart s' else s
  | [] => []
  end.

(** [s.trim()] *)
Definition trim (s : jsstring) : jsstring :=
  rev (trimStart (rev (trimStart s))).

(** The class [[\n\r]]. *)
Definition isLineBreak (c : char) : bool := N.eqb c 10 || N.eqb c 13.

(** [s.split(/[\n\r]/)]: the pieces between the line breaks; never empty. *)
Fixpoint splitLines (s : jsstring) : list jsstring :=
  match s with
  | [] => [[]]
  | c :: s' =>
      if isLineBreak c then [] :: splitLines s'
      else match splitLines s' with
           | piece :: rest => (c :: piece) :: rest
           | [] => [[c]]
           end
  end.

(** [a || b] on strings: [undefined] and the empty string are falsy. *)
Definition orElse (a : option jsstring) (b : jsstring) : jsstring :=
  match a with
  | Some (c :: s) => c :: s
  | _ => b
  end.

Definition isLetter (c : char) : bool :=
  ((ch "a" <=? c) && (c <=? ch "z") || (ch "A" <=? c) && (c <=? ch "Z"))%N.

End JS.

Import JS.

(** ** Module constants (index.ts, lines 14-27) *)

(** [const tabStop = String.fromCodePoint(0xFFFC)] *)
Definition tabStop : jsstring := [65532%N].

(** [reJSXAbbrStart = /^[a-zA-Z.#\[\(]$/], tested on a one-unit string or on
    [undefined] (which the test turns into a longer string, never a match). *)
Definition isJSXAbbrStart (c : char) : bool :=
  isLetter c || N.eqb c (ch ".") || N.eqb c (ch "#")
  || N.eqb c (ch "[") || N.eqb c (ch "(").

Definition reJSXAbbrStart (s : jsstring) : bool :=
  match s with
  | [c] => isJSXAbbrStart c
  | _ => false
  end.

(** [reWordBound]: an optional bound character (white space, [>], [;], a
    double quote (code 34) or a single quote) and then one character of
    [[a-zA-Z.#!@\[\(]], anchored at both ends. *)
Definition isWordBound (c : char) : bool :=
  isSpace c || N.eqb c (ch ">") || N.eqb c (ch ";")
  || N.eqb c 34 || N.eqb c (ch "'").

Definition isAbbrStart (c : char) : bool :=
  isLetter c || N.eqb c (ch ".") || N.eqb c (ch "#") || N.eqb c (ch "!")
  || N.eqb c (ch "@") || N.eqb c (ch "[") || N.eqb c (ch "(").

Definition reWordBound (s : jsstring) : bool :=
  match s with
  | [c] => isAbbrStart c
  | [b; c] => isWordBound b && isAbbrStart c
  | _ => false
  end.

(** [reStylesheetWordBound = /^[\s;]?[a-zA-Z!@]$/] *)
Definition isStylesheetBound (c : char) : bool :=
  isSpace c || N.eqb c (ch ";").

Definition isStylesheetStart (c : char) : bool :=
  isLetter c || N.eqb c (ch "!") || N.eqb c (ch "@").

Definition reStylesheetWordBound (s : jsstring) : bool :=
  match s with
  | [c] => isStylesheetStart c
  | [b; c] => isStylesheetBound b && isStylesheetStart c
  | _ => false
  end.

(** [pairs]: opening character to closing character. *)
Definition pairs : list (char * char) :=
  [(ch "{", ch "}"); (ch "[", ch "]"); (ch "(", ch ")")].

(** [pairs[key]] for a one-unit key. *)
Fixpoint pairsLookup (table : list (char * char)) (key : char) : option char :=
  match table with
  | [] => None
  | (open, close) :: rest =>
      if N.eqb key open then Some close else pairsLookup rest key
  end.

(** [pairsEnd]: the values of [pairs] in key order. *)
Definition pairsEnd : list char := map snd pairs.

(** [pairsEnd.includes(x)] where [x] is a one-unit string or [undefined]. *)
Definition pairsEndIncludes (x : option char) : bool :=
  match x with
  | Some c => existsb (N.eqb c) pairsEnd
  | None => false
  end.

(** ** The tracked abbreviation *)

(** [tracker.abbreviation]: the parsed text ([type: 'abbreviation']) or the
    parse error ([type: 'error'], with [error.pos]). *)
Inductive ParsedAbbreviation : Type :=
| AbbreviationValid (abbr : jsstring)
| AbbreviationError (abbr : jsstring) (errorPos : Z).

Definition abbr (p : ParsedAbbreviation) : jsstring :=
  match p with
  | AbbreviationValid a => a
  | AbbreviationError a _ => a
  end.

(** Modelled from the spec: the class [AbbreviationTracker] is declared in
    ./AbbreviationTracker, which is not part of the sources; these are the
    fields that index.ts reads, with [offset] as section 3 describes it (the
    prefix characters of the range that are not part of the text). *)
Record AbbreviationTracker : Type := {
  range : Z * Z;
  forced : bool;
  offset : Z;
  abbreviation : option ParsedAbbreviation
}.

(** ** Stop-condition evaluator (index.ts, lines 142-187) *)

(** The loop of lines 175-181; each turn lowers [targetPos] by one, so
    [targetPos - start] turns are enough. *)
Fixpoint walkBack (fuel : nat) (text : jsstring) (start targetPos : Z) : Z :=
  match fuel with
  | O => targetPos
  | S fuel' =>
      if targetPos >? start then
        if pairsEndIncludes (charAt text (targetPos - start - 1))
        then walkBack fuel' text start (targetPos - 1)
        else targetPos
      else targetPos
  end.

Definition shouldStopTracking (tracker : AbbreviationTracker) (pos : Z) : bool :=
  if forced tracker then false
  else
    match abbreviation tracker with
    | None => true
    | Some parsed =>
        let a := abbr parsed in
        if existsb isLineBreak a || includes a tabStop then true
        else
          match parsed with
          | AbbreviationError _ errorPos =>
              if snd (range tracker) =? pos then true
              else if errorPos =? 0 then true
              else
                let start := fst (range tracker) in
                let targetPos := snd (range tracker) in
                walkBack (Z.to_nat (targetPos - start)) a start targetPos =? pos
          | AbbreviationValid _ => false
          end
    end.

(** ** Data of the collaborators

    The shapes of the values that the imported packages hand over, with the
    fields that index.ts reads. *)

(** [TokenType] of the CSS matcher. *)
Inductive TokenType : Type := Selector | PropertyName | PropertyValue | BlockEnd.

Definition TokenType_eqb (a b : TokenType) : bool :=
  match a, b with
  | Selector, Selector | PropertyName, PropertyName
  | PropertyValue, PropertyValue | BlockEnd, BlockEnd => true
  | _, _ => false
  end.

Module CSSMatch.
Record t : Type := { name : jsstring; type : TokenType; range : Z * Z }.
End CSSMatch.

Module CSSContext.
Record t : Type := {
  ancestors : list CSSMatch.t;
  current : option CSSMatch.t;
  inline : bool
}.
End CSSContext.

Module ContextTag.
Record t : Type := { name : jsstring; range : Z * Z }.
End ContextTag.

Module HTMLContext.
Record t : Type := {
  ancestors : list ContextTag.t;
  current : option ContextTag.t;
  css : option CSSContext.t
}.
End HTMLContext.

Module AttributeToken.
Record t : Type := { name : jsstring; value : option jsstring }.
End AttributeToken.

(** [AbbreviationContext] of the expander: a name and, for markup, the
    attributes of the parent element (an object used as a map, kept in
    insertion order). *)
Module AbbreviationContext.
Record t : Type := {
  name : jsstring;
  attributes : option (list (jsstring * jsstring))
}.
End AbbreviationContext.

Inductive SyntaxType : Type := Markup | Stylesheet.

Definition SyntaxType_eqb (a b : SyntaxType) : bool :=
  match a, b with
  | Markup, Markup | Stylesheet, Stylesheet => true
  | _, _ => false
  end.

(** [UserConfig]: the activation context; [O] is the type of the output
    options, which this module only passes on. *)
Module UserConfig.
Record t (O : Type) : Type := {
  syntax : jsstring;
  type : SyntaxType;
  context : option AbbreviationContext.t;
  options : O
}.
Arguments syntax {O} _.
Arguments type {O} _.
Arguments context {O} _.
Arguments options {O} _.
End UserConfig.

(** The last argument of [startTracking]. *)
Module StartTrackingParams.
Record t (O : Type) : Type := {
  offset : Z;
  options : option (UserConfig.t O)
}.
Arguments offset {O} _.
Arguments options {O} _.
End StartTrackingParams.

(** What [extract] returns. *)
Module ExtractedAbbreviation.
Record t : Type := { abbreviation : jsstring; start : Z; end_ : Z }.
End ExtractedAbbreviation.

(** The editor as this module sees it: the text of the buffer, the caret and
    the syntax name of the document. *)
Record TextEditor : Type := {
  content : jsstring;
  caret : Z;
  documentSyntax : jsstring
}.

Record CompletionContext : Type := { position : Z }.

(** [nova.config]: the boolean settings by key; [None] is [null]. *)
Record Nova : Type := { config : jsstring -> option bool }.

(** ** Exceptions *)

Definition JSError := string.

(** The outcome of a call that may throw. *)
Inductive result (A : Type) : Type :=
| Ok (a : A)
| Throw (e : JSError).
Arguments Ok {A} a.
Arguments Throw {A} e.

Definition bindResult {A B : Type} (r : result A) (k : A -> result B) : result B :=
  match r with
  | Ok a => k a
  | Throw e => Throw e
  end.

Notation "'let?' x ':=' r 'in' k" := (bindResult r (fun x => k))
  (at level 10, x name, r at level 100, k at level 200).

(** ** Helpers of lib/utils *)

(** Modelled from the spec: [getContent] and [getCaret] of ../lib/utils are
    the buffer queries [content(editor)] and [caret(editor)] of section 6. *)
Definition getContent (editor : TextEditor) : jsstring := content editor.

Definition getCaret (editor : TextEditor) : Z := caret editor.

(** Modelled from the spec: [substr] of ../lib/utils is the buffer query
    [substring(editor, [from,to))] of section 6: the text between the two
    offsets, which are clipped to the buffer. *)
Definition substr (editor : TextEditor) (r : Z * Z) : jsstring :=
  let from := Z.max 0 (fst r) in
  let to := Z.max from (snd r) in
  firstn (Z.to_nat (to - from)) (skipn (Z.to_nat from) (content editor)).

(** [last] (lines 310-312). *)
Definition last {T : Type} (arr : list T) : option T :=
  if (0 <? List.length arr)%nat then nth_error arr (List.length arr - 1) else None.

(** [obj[key] = v] on an object used as a map. *)
Fixpoint setProperty (obj : list (jsstring * jsstring)) (key v : jsstring)
  : list (jsstring * jsstring) :=
  match obj with
  | [] => [(key, v)]
  | (k, w) :: rest =>
      if eqb k key then (k, v) :: rest else (k, w) :: setProperty rest key v
  end.

(** [re.test(x)] for [x] a one-unit string or [undefined], which [test]
    turns into the string of its name. *)
Definition testOn (re : jsstring -> bool) (x : option char) : bool :=
  match x with
  | Some c => re [c]
  | None => re (lit "undefined")
  end.

Definition isSome {T : Type} (o : option T) : bool :=
  match o with Some _ => true | None => false end.

(** ** The collaborators

    [OutputOptions] is what [getOutputOptions] of ../lib/output returns and
    [TrackerStore] is the registry of ./AbbreviationTracker (the tracker of
    every editor); both are opaque here. *)

(** The imports of index.ts.  The two structural queries may throw; the
    registry functions read and update the registry. *)
Class Host (OutputOptions TrackerStore : Type) : Type := {
  (* ../lib/syntax *)
  isSupported : jsstring -> bool;
  isJSX : jsstring -> bool;
  isCSS : jsstring -> bool;
  isHTML : jsstring -> bool;
  isXML : jsstring -> bool;
  docSyntax : TextEditor -> jsstring;
  (* ../lib/emmet *)
  JSX_PREFIX : jsstring;
  extract : jsstring -> Z -> jsstring -> jsstring -> option ExtractedAbbreviation.t;
  (* emmet: CSSAbbreviationScope.Global and CSSAbbreviationScope.Section *)
  scopeGlobal : jsstring;
  scopeSection : jsstring;
  (* @emmetio/action-utils *)
  getCSSContext : jsstring -> Z -> result CSSContext.t;
  getHTMLContext : jsstring -> Z -> bool -> result HTMLContext.t;
  (* @emmetio/html-matcher and ../lib/utils *)
  attributes : jsstring -> jsstring -> list AttributeToken.t;
  attributeValue : AttributeToken.t -> option jsstring;
  (* ../lib/output *)
  getOutputOptions : TextEditor -> Z -> option bool -> OutputOptions;
  (* ./AbbreviationTracker *)
  handleChange : TextEditor -> TrackerStore -> option AbbreviationTracker * TrackerStore;
  startTracking : TextEditor -> Z -> Z -> StartTrackingParams.t OutputOptions ->
                  TrackerStore -> AbbreviationTracker * TrackerStore;
  stopTracking : TextEditor -> TrackerStore -> TrackerStore
}.

Section Collaborators.

Context {OutputOptions TrackerStore : Type} {host : Host OutputOptions TrackerStore}.

(** Computations that read and update the registry and may throw; what was
    written before an exception stays written. *)
Definition M (A : Type) : Type := TrackerStore -> result A * TrackerStore.

Definition ret {A : Type} (a : A) : M A := fun st => (Ok a, st).

Definition bind {A B : Type} (m : M A) (k : A -> M B) : M B :=
  fun st =>
    match m st with
    | (Ok a, st') => k a st'
    | (Throw e, st') => (Throw e, st')
    end.

Definition liftResult {A : Type} (r : result A) : M A := fun st => (r, st).

Definition liftStore {A : Type} (f : TrackerStore -> A * TrackerStore) : M A :=
  fun st => let (a, st') := f st in (Ok a, st').

Notation "'let*' x ':=' m 'in' k" := (bind m (fun x => k))
  (at level 10, x name, m at level 100, k at level 200).

(** ** Context resolver (index.ts, lines 200-308) *)

(** [getCSSAbbreviationContext] (lines 250-263). *)
Definition getCSSAbbreviationContext (ctx : CSSContext.t) : jsstring :=
  let parent := last (CSSContext.ancestors ctx) in
  match CSSContext.current ctx with
  | Some current =>
      match TokenType_eqb (CSSMatch.type current) PropertyValue, parent with
      | true, Some p => CSSMatch.name p
      | _, _ =>
          if TokenType_eqb (CSSMatch.type current) Selector && negb (isSome parent)
          then scopeSection
          else scopeGlobal
      end
  | None => scopeGlobal
  end.

(** [isTypingBeforeSelector] (lines 270-279). *)
Definition isTypingBeforeSelector (editor : TextEditor) (pos : Z)
  (ctx : CSSContext.t) : bool :=
  match CSSContext.current ctx with
  | Some current =>
      if TokenType_eqb (CSSMatch.type current) Selector
         && (fst (CSSMatch.range current) =? pos - 1)
      then
        let line := hd [] (splitLines (substr editor (CSSMatch.range current))) in
        JS.length (trim line) =? 1
      else false
  | None => false
  end.

(** [getCSSActivationContext] (lines 225-248). *)
Definition getCSSActivationContext (editor : TextEditor) (pos : Z)
  (syntax : jsstring) (ctx : CSSContext.t) : option (UserConfig.t OutputOptions) :=
  match CSSContext.current ctx with
  | None => None
  | Some current =>
      let allowedContext :=
        TokenType_eqb (CSSMatch.type current) PropertyName
        || TokenType_eqb (CSSMatch.type current) PropertyValue
        || isTypingBeforeSelector editor pos ctx in
      if allowedContext then
        Some {| UserConfig.syntax := syntax;
                UserConfig.type := Stylesheet;
                UserConfig.context :=
                  Some {| AbbreviationContext.name := getCSSAbbreviationContext ctx;
                          AbbreviationContext.attributes := None |};
                UserConfig.options :=
                  getOutputOptions editor pos (Some (CSSContext.inline ctx)) |}
      else None
  end.

(** The tag source of the parent element, [code.slice(range[0], range[1])]. *)
Definition tagSource (code : jsstring) (parent : ContextTag.t) : jsstring :=
  slice code (fst (ContextTag.range parent)) (snd (ContextTag.range parent)).

(** [getMarkupAbbreviationContext] (lines 281-294). *)
Definition getMarkupAbbreviationContext (code : jsstring) (ctx : HTMLContext.t)
  : option AbbreviationContext.t :=
  match last (HTMLContext.ancestors ctx) with
  | Some parent =>
      let attrs :=
        fold_left
          (fun obj attr =>
             setProperty obj (AttributeToken.name attr) (orElse (attributeValue attr) []))
          (attributes (tagSource code parent) (ContextTag.name parent)) [] in
      Some {| AbbreviationContext.name := ContextTag.name parent;
              AbbreviationContext.attributes := Some attrs |}
  | None => None
  end.

(** The loop of lines 302-306: the value of the first attribute named
    [type]. *)
Fixpoint firstTypeAttribute (attrs : list AttributeToken.t) : option jsstring :=
  match attrs with
  | [] => None
  | attr :: rest =>
      if eqb (AttributeToken.name attr) (lit "type") then attributeValue attr
      else firstTypeAttribute rest
  end.

(** [getEmbeddedStyleSyntax] (lines 299-308). *)
Definition getEmbeddedStyleSyntax (code : jsstring) (ctx : HTMLContext.t)
  : option jsstring :=
  match last (HTMLContext.ancestors ctx) with
  | Some parent =>
      if eqb (ContextTag.name parent) (lit "style")
      then firstTypeAttribute (attributes (tagSource code parent) (ContextTag.name parent))
      else None
  | None => None
  end.

(** The syntax that line 211 gives the stylesheet branch:
    [getEmbeddedStyleSyntax(content, ctx) || syntax]. *)
Definition embeddedSyntax (editor : TextEditor) (ctx : HTMLContext.t) : jsstring :=
  orElse (getEmbeddedStyleSyntax (getContent editor) ctx) (docSyntax editor).

(** [getActivationContext] (lines 200-223).  There is no handler around the
    two structural queries: what they throw leaves the function. *)
Definition getActivationContext (editor : TextEditor) (pos : Z)
  : result (option (UserConfig.t OutputOptions)) :=
  let syntax := docSyntax editor in
  if isCSS syntax then
    let? ctx := getCSSContext (getContent editor) pos in
    Ok (getCSSActivationContext editor pos syntax ctx)
  else if isHTML syntax then
    let content := getContent editor in
    let? ctx := getHTMLContext content pos (isXML syntax) in
    match HTMLContext.css ctx with
    | Some cssCtx =>
        Ok (getCSSActivationContext editor pos
              (orElse (getEmbeddedStyleSyntax content ctx) syntax) cssCtx)
    | None =>
        if negb (isSome (HTMLContext.current ctx)) then
          Ok (Some {| UserConfig.syntax := syntax;
                      UserConfig.type := Markup;
                      UserConfig.context := getMarkupAbbreviationContext content ctx;
                      UserConfig.options := getOutputOptions editor pos None |})
        else Ok None
    end
  else Ok None.

(** ** Boundary detector (index.ts, lines 97-137) *)

(** A candidate span: the values of [start], [end] and [offset] once the
    block of lines 118-123 has run. *)
Record Span : Type := { spanStart : Z; spanEnd : Z; spanOffset : Z }.

(** The two characters before the caret (line 102). *)
Definition prefixWindow (editor : TextEditor) (pos : Z) : jsstring :=
  substr editor (Z.max 0 (pos - 2), pos).

(** Lines 104-116: [start] and [offset]; [start] stays [-1] when the window
    does not open an abbreviation. *)
Definition detectStart (editor : TextEditor) (pos : Z) (prefix : jsstring) : Z * Z :=
  let syntax := docSyntax editor in
  if isJSX syntax then
    if (JS.length prefix =? 2)
       && strictEq (option_map (fun c => [c]) (charAt prefix 0)) (Some JSX_PREFIX)
       && testOn reJSXAbbrStart (charAt prefix 1)
    then (pos - 2, JS.length JSX_PREFIX)
    else (-1, 0)
  else if reWordBound prefix then (pos - 1, 0)
  else (-1, 0).

(** Lines 120-123: [end] after the test for a paired character. *)
Definition absorbPair (editor : TextEditor) (pos : Z) (prefix : jsstring) : Z :=
  let lastCh := charAt prefix (JS.length prefix - 1) in
  match lastCh with
  | Some c =>
      match pairsLookup pairs c with
      | Some close =>
          if eqb (substr editor (pos, pos + 1)) [close] then pos + 1 else pos
      | None => pos
      end
  | None => pos
  end.

(** Lines 102-123 together: the span that line 134 hands to
    [startTracking], if [start >= 0]. *)
Definition candidateSpan (editor : TextEditor) (pos : Z) : option Span :=
  let prefix := prefixWindow editor pos in
  let (start, offset) := detectStart editor pos prefix in
  if start >=? 0 then
    Some {| spanStart := start;
            spanEnd := absorbPair editor pos prefix;
            spanOffset := offset |}
  else None.

(** [startAbbreviationTracking] (lines 97-137). *)
Definition startAbbreviationTracking (editor : TextEditor) (pos : Z)
  : M (option AbbreviationTracker) :=
  let prefix := prefixWindow editor pos in
  match candidateSpan editor pos with
  | Some span =>
      let* options := liftResult (getActivationContext editor pos) in
      match options with
      | Some o =>
          if SyntaxType_eqb (UserConfig.type o) Stylesheet
             && negb (reStylesheetWordBound prefix)
          then ret None
          else
            let* tracker :=
              liftStore (startTracking editor (spanStart span) (spanEnd span)
                {| StartTrackingParams.offset := spanOffset span;
                   StartTrackingParams.options := Some o |}) in
            ret (Some tracker)
      | None => ret None
      end
  | None => ret None
  end.

(** [extractTracker] (lines 82-92). *)
Definition extractTracker (editor : TextEditor) (ctx : CompletionContext)
  : M (option AbbreviationTracker) :=
  let syntax := documentSyntax editor in
  let prefix := if isJSX syntax then JSX_PREFIX else [] in
  match extract (getContent editor) (position ctx) syntax prefix with
  | Some abbr =>
      let* options :=
        liftResult (getActivationContext editor (ExtractedAbbreviation.start abbr + 1)) in
      let* tracker :=
        liftStore (startTracking editor
          (ExtractedAbbreviation.start abbr) (ExtractedAbbreviation.end_ abbr)
          {| StartTrackingParams.offset := JS.length prefix;
             StartTrackingParams.options := options |}) in
      ret (Some tracker)
  | None => ret None
  end.

(** ** Editor events (index.ts, lines 31-77) *)

(** [isEnabled] (lines 75-77); [null] is falsy where the result is tested. *)
Definition isEnabled (nova : Nova) : bool :=
  match config nova (lit "emmet.enable-completions") with
  | Some b => b
  | None => false
  end.

(** [allowTracking] (lines 63-70). *)
Definition allowTracking (nova : Nova) (editor : TextEditor) (pos : Z) : bool :=
  if isEnabled nova then
    let syntax := docSyntax editor in
    isSupported syntax || isJSX syntax
  else false.

(** The state that [initAbbreviationTracker] keeps for one editor: the
    variable [lastPos] of its closure and the registry. *)
Record Session : Type := { lastPos : option Z; store : TrackerStore }.

(** The listener of [editor.onDidChange] (lines 34-47). *)
Definition onDidChange (nova : Nova) (ed : TextEditor) (s : Session)
  : result unit * Session :=
  let pos := getCaret ed in
  let (tracker, st1) := handleChange ed (store s) in
  let (started, st2) :=
    if negb (isSome tracker)
       && match lastPos s with Some l => l =? pos - 1 | None => false end
       && allowTracking nova ed pos
    then startAbbreviationTracking ed pos st1
    else (Ok tracker, st1) in
  match started with
  | Throw e => (Throw e, {| lastPos := lastPos s; store := st2 |})
  | Ok tracker' =>
      let st3 :=
        match tracker' with
        | Some t => if shouldStopTracking t pos then stopTracking ed st2 else st2
        | None => st2
        end in
      (Ok tt, {| lastPos := Some pos; store := st3 |})
  end.

(** The listener of [editor.onDidChangeSelection] (lines 49-53). *)
Definition onDidChangeSelection (nova : Nova) (ed : TextEditor) (s : Session)
  : Session :=
  if isEnabled nova then {| lastPos := Some (getCaret ed); store := store s |}
  else s.

(** The fields of a resolved context that the statements below compare. *)
Definition activationName (r : result (option (UserConfig.t OutputOptions)))
  : option jsstring :=
  match r with
  | Ok (Some cfg) => option_map AbbreviationContext.name (UserConfig.context cfg)
  | _ => None
  end.

Definition activationSyntax (r : result (option (UserConfig.t OutputOptions)))
  : option jsstring :=
  match r with
  | Ok (Some cfg) => Some (UserConfig.syntax cfg)
  | _ => None
  end.

End Collaborators.

Arguments M TrackerStore A : clear implicits.
Arguments Session TrackerStore : clear implicits.

(** ** The stop condition as section 4.5 words it

    Step 4c walks backward from the end of the range while the trailing
    characters of the abbreviation text are closing characters.  This is
    that walk, read off the text from its end, to be compared with
    [walkBack]. *)

Definition isPairEnd (c : char) : bool :=
  N.eqb c (ch "}") || N.eqb c (ch "]") || N.eqb c (ch ")").

Fixpoint walkTrailing (reversed : jsstring) (start target : Z) : Z :=
  match reversed with
  | c :: rest =>
      if (target >? start) && isPairEnd c
      then walkTrailing rest start (target - 1)
      else target
  | [] => target
  end.

Definition specWalk (text : jsstring) (start target : Z) : Z :=
  walkTrailing (rev text) start target.

(** Steps 4a-4c for an error parse. *)
Definition specStopOnError (r : Z * Z) (text : jsstring) (errorPos pos : Z) : bool :=
  (snd r =? pos) || (errorPos =? 0) || (specWalk text (fst r) (snd r) =? pos).

(** The number of closing characters that end a text. *)
Fixpoint leadingClosers (s : jsstring) : nat :=
  match s with
  | c :: rest => if isPairEnd c then S (leadingClosers rest) else O
  | [] => O
  end.

Definition trailingClosers (text : jsstring) : nat := leadingClosers (rev text).

(** The characters that may open an abbreviation after the JSX prefix:
    the class [[A-Za-z.#[(]]. *)
Definition JSXStartChar (c : char) : Prop :=
  (ch "A" <= c <= ch "Z")%N \/ (ch "a" <= c <= ch "z")%N
  \/ c = ch "." \/ c = ch "#" \/ c = ch "[" \/ c = ch "(".

(** An opening character of [pairs] stands before the caret and its closing
    character right after it. *)
Definition pairedAtCaret (editor : TextEditor) (pos : Z) : Prop :=
  exists open close,
    In (open, close) pairs
    /\ charAt (content editor) (pos - 1) = Some open
    /\ charAt (content editor) pos = Some close.

(** The text of a selector token whose first line holds one character that
    is not white space, between blanks (white space other than the two line
    breaks): the character just typed stands alone on its line. *)
Definition aloneOnLine (text : jsstring) : Prop :=
  exists pre c post tail,
    text = pre ++ c :: post ++ tail
    /\ (forall x, In x pre -> isSpace x = true /\ isLineBreak x = false)
    /\ (forall x, In x post -> isSpace x = true /\ isLineBreak x = false)
    /\ isSpace c = false
    /\ (tail = [] \/ exists b rest, tail = b :: rest /\ isLineBreak b = true).

(** ** Stand-ins for the collaborators

    Fixed answers for the structural queries and a registry with one slot,
    to run the definitions on concrete buffers.  A started tracker holds the
    text of its range without the offset characters, as a valid parse. *)

Module Fixture.

Definition syntaxHost (cssCtx : result CSSContext.t) (htmlCtx : result HTMLContext.t)
  (attrs : list AttributeToken.t) (extracted : option ExtractedAbbreviation.t)
  : Host unit (option AbbreviationTracker) :=
  {| isSupported := fun s => eqb s (lit "css") || eqb s (lit "html");
     isJSX := fun s => eqb s (lit "jsx");
     isCSS := fun s => eqb s (lit "css");
     isHTML := fun s => eqb s (lit "html") || eqb s (lit "jsx");
     isXML := fun s => eqb s (lit "jsx");
     docSyntax := documentSyntax;
     JSX_PREFIX := lit "<";
     extract := fun _ _ _ _ => extracted;
     scopeGlobal := lit "@@global";
     scopeSection := lit "@@section";
     getCSSContext := fun _ _ => cssCtx;
     getHTMLContext := fun _ _ _ => htmlCtx;
     attributes := fun _ _ => attrs;
     attributeValue := AttributeToken.value;
     getOutputOptions := fun _ _ _ => tt;
     handleChange := fun _ slot => (slot, slot);
     startTracking := fun editor s e params _ =>
       let off := StartTrackingParams.offset params in
       let t := {| range := (s, e); forced := false; offset := off;
                   abbreviation :=
                     Some (AbbreviationValid (sliceFrom (substr editor (s, e)) off)) |} in
       (t, Some t);
     stopTracking := fun _ _ => None |}.

Definition noCSS : result CSSContext.t := Throw "no stylesheet"%string.
Definition noHTML : result HTMLContext.t := Throw "no markup"%string.

Definition editorOf (text : jsstring) (syntax : string) (pos : Z) : TextEditor :=
  {| content := text; caret := pos; documentSyntax := lit syntax |}.

(** The buffer [ul {], [  l], [}] (three lines). *)
Definition nestedRule : jsstring :=
  lit "ul {" ++ [10%N] ++ lit "  l" ++ [10%N] ++ lit "}".

(** A selector token [l] typed at offset 7, inside the body of the rule
    [ul], which spans the buffer. *)
Definition nestedSelector : CSSContext.t :=
  {| CSSContext.ancestors :=
       [{| CSSMatch.name := lit "ul"; CSSMatch.type := Selector;
           CSSMatch.range := (0, 10) |}];
     CSSContext.current :=
       Some {| CSSMatch.name := lit "l"; CSSMatch.type := Selector;
               CSSMatch.range := (7, 8) |};
     CSSContext.inline := false |}.

(** A selector token [a] typed at offset 0 of an empty stylesheet. *)
Definition topLevelSelector : CSSContext.t :=
  {| CSSContext.ancestors := [];
     CSSContext.current :=
       Some {| CSSMatch.name := lit "a"; CSSMatch.type := Selector;
               CSSMatch.range := (0, 1) |};
     CSSContext.inline := false |}.

(** The value token [r] (offsets 11-12) under the property [color] of the
    top-level rule [a { color: r }]. *)
Definition colorValue : CSSContext.t :=
  {| CSSContext.ancestors :=
       [{| CSSMatch.name := lit "a"; CSSMatch.type := Selector;
           CSSMatch.range := (0, 14) |};
        {| CSSMatch.name := lit "color"; CSSMatch.type := PropertyName;
           CSSMatch.range := (4, 9) |}];
     CSSContext.current :=
       Some {| CSSMatch.name := lit "r"; CSSMatch.type := PropertyValue;
               CSSMatch.range := (11, 12) |};
     CSSContext.inline := false |}.

(** The buffer of a [style] element whose [type] attribute has the empty
    value (two double quotes, code 34), with the rule [a { c }] inside. *)
Definition styleElement : jsstring :=
  lit "<style type=" ++ [34%N; 34%N] ++ lit ">a { c }</style>".

(** The caret inside that [style] element: the markup query reports the
    embedded stylesheet, whose current token is a property name. *)
Definition insideStyle : HTMLContext.t :=
  {| HTMLContext.ancestors :=
       [{| ContextTag.name := lit "style"; ContextTag.range := (0, 15) |}];
     HTMLContext.current := None;
     HTMLContext.css :=
       Some {| CSSContext.ancestors :=
                 [{| CSSMatch.name := lit "a"; CSSMatch.type := Selector;
                     CSSMatch.range := (15, 22) |}];
               CSSContext.current :=
                 Some {| CSSMatch.name := lit "c"; CSSMatch.type := PropertyName;
                         CSSMatch.range := (19, 20) |};
               CSSContext.inline := false |} |}.

(** The buffer [<div class=.x.>p</div>] (the dots are double quotes) and
    what the markup query reports after the [p]: the open [div] as the only
    ancestor and no token under the caret. *)
Definition divElement : jsstring :=
  lit "<div class=" ++ [34%N] ++ lit "x" ++ [34%N] ++ lit ">p</div>".

Definition insideDiv : HTMLContext.t :=
  {| HTMLContext.ancestors :=
       [{| ContextTag.name := lit "div"; ContextTag.range := (0, 15) |}];
     HTMLContext.current := None;
     HTMLContext.css := None |}.

Definition classAttribute : AttributeToken.t :=
  {| AttributeToken.name := lit "class"; AttributeToken.value := Some (lit "x") |}.

Definition typeAttribute (v : option jsstring) : AttributeToken.t :=
  {| AttributeToken.name := lit "type"; AttributeToken.value := v |}.

(** A tracker over [start, end) of an error parse of [text]. *)
Definition errorTracker (s e off : Z) (text : string) (errorPos : Z)
  : AbbreviationTracker :=
  {| range := (s, e); forced := false; offset := off;
     abbreviation := Some (AbbreviationError (lit text) errorPos) |}.

Definition configOf (enabled : option bool) : Nova :=
  {| config := fun key =>
       if eqb key (lit "emmet.enable-completions") then enabled else None |}.

End Fixture.

(** * Conversion to data URLs (src/actions/convert-data-url.ts)

    The command [emmet.convert-data-url] replaces the source of an image
    (the [src] attribute of an [img] tag, a [url(...)] token of a stylesheet
    value) by a [data:] URL of the file it names.  What the command does to
    the editor and to the workspace is the list of its effects, in program
    order. *)

(** A [Range] of the editor interface. *)
Module NovaRange.
Record t : Type := { start : Z; end_ : Z }.
End NovaRange.

(** [new Range(start, end)]: the constructor raises an error when the end
    precedes the start. *)
Definition newRange (s e : Z) : result NovaRange.t :=
  if e <? s then Throw "Range: the end index precedes the start index"%string
  else Ok {| NovaRange.start := s; NovaRange.end_ := e |}.

(** An attribute token of the markup matcher with the offsets of its
    value. *)
Module AttributeSpan.
Record t : Type := {
  token : AttributeToken.t;
  valueStart : Z;
  valueEnd : Z
}.
End AttributeSpan.

(** The open tag that [getOpenTag] reports. *)
Module OpenTag.
Record t : Type := {
  name : jsstring;
  attributes : option (list AttributeSpan.t)
}.
End OpenTag.

(** [NovaCSSProperty]: the range of the value and of each of its tokens. *)
Module NovaCSSProperty.
Record t : Type := { value : NovaRange.t; valueTokens : list NovaRange.t }.
End NovaCSSProperty.

(** What [cssSection] reports. *)
Module CSSSection.
Record t : Type := { properties : option (list NovaCSSProperty.t) }.
End CSSSection.

(** What the command does: a warning shown in the workspace, or the text of
    a range replaced ([edit.delete(range)] then
    [edit.insert(range.start, text)]). *)
Inductive Effect : Type :=
| ShowWarning (message : jsstring)
| Replace (range : NovaRange.t) (text : jsstring).

(** [mimeTypes] (lines 8-15). *)
Definition mimeTypes : list (jsstring * jsstring) :=
  [(lit "gif", lit "image/gif");
   (lit "png", lit "image/png");
   (lit "jpg", lit "image/jpeg");
   (lit "jpeg", lit "image/jpeg");
   (lit "svg", lit "image/svg+xml");
   (lit "webp", lit "image/webp")].

(** The own property [key] of an object literal. *)
Fixpoint ownProperty (obj : list (jsstring * jsstring)) (key : jsstring)
  : option jsstring :=
  match obj with
  | [] => None
  | (k, v) :: rest => if eqb k key then Some v else ownProperty rest key
  end.

(** [maxSize] (line 89). *)
Definition maxSize : Z := 20480.

(** A string or [undefined] where a condition tests it: the empty string
    and [undefined] are falsy. *)
Definition truthyString (s : option jsstring) : bool :=
  match s with
  | Some (_ :: _) => true
  | _ => false
  end.

(** *** The pattern of [getURLRange]

    The pattern of line 167 has two groups: the first is the text [url(]
    and an optional quote (single, or double: code 34), taken if the rest
    can still match; the second is [.+?], at least one character other than
    a line terminator and as few as possible.  An optional quote and the
    closing parenthesis follow. *)

Definition isQuoteChar (c : char) : bool := N.eqb c 39 || N.eqb c 34.

(** What the dot of a pattern matches: every code unit but the four line
    terminators. *)
Definition isDotChar (c : char) : bool :=
  negb (N.eqb c 10 || N.eqb c 13 || N.eqb c 8232 || N.eqb c 8233).

(** The end of the pattern (an optional quote and the closing parenthesis)
    matches at the start of a text. *)
Definition closesURL (s : jsstring) : bool :=
  match s with
  | q :: s' =>
      (isQuoteChar q && match s' with p :: _ => N.eqb p (ch ")") | [] => false end)
      || N.eqb q (ch ")")
  | [] => false
  end.

(** The lazy group [(.+?)] followed by the end of the pattern: the number
    of characters that the group takes. *)
Fixpoint lazyBody (s : jsstring) : option nat :=
  match s with
  | c :: s' =>
      if isDotChar c then
        if closesURL s' then Some 1%nat else option_map S (lazyBody s')
      else None
  | [] => None
  end.

(** The pattern at the start of a text: the lengths of the two groups. *)
Definition matchURLHere (s : jsstring) : option (nat * nat) :=
  if startsWith s (lit "url(") then
    let after := skipn 4 s in
    let unquoted := option_map (fun k => (4%nat, k)) (lazyBody after) in
    match after with
    | q :: after' =>
        if isQuoteChar q then
          match lazyBody after' with
          | Some k => Some (5%nat, k)
          | None => unquoted
          end
        else unquoted
    | [] => unquoted
    end
  else None.

(** [text.match(pattern)]: the leftmost match; its index and the lengths of
    the two groups. *)
Fixpoint matchURL (s : jsstring) : option (nat * nat * nat) :=
  match matchURLHere s with
  | Some (g1, g2) => Some (O, g1, g2)
  | None =>
      match s with
      | _ :: s' =>
          match matchURL s' with
          | Some (i, g1, g2) => Some (S i, g1, g2)
          | None => None
          end
      | [] => None
      end
  end.

(** The imports of convert-data-url.ts and the editor interface it uses.
    The file is read at the one place where [convertToDataURL] awaits. *)
Class DataHost : Type := {
  (* ../syntax *)
  syntaxFromPos : TextEditor -> Z -> option jsstring;
  (* @emmetio/action-utils and ../emmet *)
  getOpenTag : jsstring -> Z -> option OpenTag.t;
  cssSection : jsstring -> Z -> bool -> option CSSSection.t;
  (* ../utils *)
  isURL : jsstring -> bool;
  isQuoted : jsstring -> bool;
  locateFile : jsstring -> jsstring -> option jsstring;
  readFile : jsstring -> option (list Byte.byte);
  (* ./base64 *)
  b64encode : list Byte.byte -> jsstring;
  (* the editor and the workspace *)
  getTextInRange : TextEditor -> NovaRange.t -> jsstring;
  containsIndex : NovaRange.t -> Z -> bool;
  documentPath : TextEditor -> option jsstring;
  fileSize : jsstring -> option Z;
  splitext : jsstring -> jsstring;
  (* the language: [name.toLowerCase()], and the text of the property that
     an object literal inherits under a name, if it inherits one *)
  toLowerCase : jsstring -> jsstring;
  inheritedProperty : jsstring -> option jsstring
}.

Section DataURL.

Context {OutputOptions TrackerStore : Type} {host : Host OutputOptions TrackerStore}
        {dataHost : DataHost}.

(** [ext in mimeTypes] and [mimeTypes[ext]] as the template of line 114
    prints it: an own property of the table, else an inherited one. *)
Definition mimeOf (ext : jsstring) : option jsstring :=
  match ownProperty mimeTypes ext with
  | Some mime => Some mime
  | None => inheritedProperty ext
  end.

(** Lines 106-123 of [convertToDataURL]: the part after the file was
    located. *)
Definition embedFile (range : NovaRange.t) (src : jsstring)
  (absFile : option jsstring) : list Effect :=
  match absFile with
  | Some (c :: f) =>
      match readFile (c :: f) with
      | Some data =>
          if (maxSize =? 0) || (Z.of_nat (List.length data) <=? maxSize) then
            let ext := splitext (c :: f) in
            match mimeOf ext with
            | Some mime =>
                [Replace range
                   (lit "data:" ++ mime ++ lit ";base64," ++ b64encode data)]
            | None => []
            end
          else []
      | None => []
      end
  | _ => [ShowWarning (lit "Unable to locate file for " ++ src ++ lit ".")]
  end.

(** [convertToDataURL] (lines 87-124). *)
Definition convertToDataURL (editor : TextEditor) (range : NovaRange.t)
  : list Effect :=
  let src := getTextInRange editor range in
  if isURL src then embedFile range src (Some src)
  else
    match documentPath editor with
    | Some (c :: path) =>
        let absFile := locateFile (c :: path) src in
        if truthyString absFile && negb (maxSize =? 0) then
          match option_map fileSize absFile with
          | Some (Some size) =>
              if size >? maxSize then
                [ShowWarning
                   (lit "Size of " ++ src
                    ++ lit " is too large for data:URL. Check Emmet plugin preferences to increase this limit.")]
              else embedFile range src absFile
          | _ => embedFile range src absFile
          end
        else embedFile range src absFile
    | _ => embedFile range src None
    end.

(** [toggleURL] (lines 75-85): the branch of a [data:] source is empty. *)
Definition toggleURL (editor : TextEditor) (range : NovaRange.t) : list Effect :=
  let src := getTextInRange editor range in
  if startsWith src (lit "data:") then []
  else convertToDataURL editor range.

(** [attrValueRange] (lines 149-159). *)
Definition attrValueRange (attr : AttributeSpan.t) : result (option NovaRange.t) :=
  match AttributeToken.value (AttributeSpan.token attr) with
  | Some v =>
      let start := AttributeSpan.valueStart attr in
      let end_ := AttributeSpan.valueEnd attr in
      let? r := if isQuoted v then newRange (start + 1) (end_ - 1)
                else newRange start end_ in
      Ok (Some r)
  | None => Ok None
  end.

(** [getURLRange] (lines 164-173). *)
Fixpoint getURLRange (view : TextEditor) (valueTokens : list NovaRange.t)
  (pos : Z) : result (option NovaRange.t) :=
  match valueTokens with
  | [] => Ok None
  | v :: rest =>
      let m := if containsIndex v pos then matchURL (getTextInRange view v)
               else None in
      match m with
      | Some (_, g1, g2) =>
          let? r := newRange (NovaRange.start v + Z.of_nat g1)
                      (NovaRange.start v + Z.of_nat g1 + Z.of_nat g2) in
          Ok (Some r)
      | None => getURLRange view rest pos
      end
  end.

(** [convertHTML] (lines 35-46). *)
Definition convertHTML (editor : TextEditor) (pos : Z) : result (list Effect) :=
  match getOpenTag (getContent editor) pos with
  | Some tag =>
      match OpenTag.attributes tag with
      | Some attrs =>
          if eqb (toLowerCase (OpenTag.name tag)) (lit "img") then
            match find (fun attr =>
                          eqb (AttributeToken.name (AttributeSpan.token attr)) (lit "src"))
                    attrs with
            | Some srcAttr =>
                let? range := attrValueRange srcAttr in
                match range with
                | Some r => Ok (toggleURL editor r)
                | None => Ok []
                end
            | None => Ok []
            end
          else Ok []
      | None => Ok []
      end
  | None => Ok []
  end.

(** The loop of [convertCSS] (lines 58-68): it stops at the first property
    whose value holds the caret. *)
Fixpoint convertProperties (editor : TextEditor) (props : list NovaCSSProperty.t)
  (pos : Z) : result (list Effect) :=
  match props with
  | [] => Ok []
  | p :: rest =>
      if containsIndex (NovaCSSProperty.value p) pos then
        let? token := getURLRange editor (NovaCSSProperty.valueTokens p) pos in
        match token with
        | Some r => Ok (toggleURL editor r)
        | None => Ok []
        end
      else convertProperties editor rest pos
  end.

(** [convertCSS] (lines 51-69). *)
Definition convertCSS (editor : TextEditor) (pos : Z) : result (list Effect) :=
  match cssSection (getContent editor) pos true with
  | Some section =>
      match CSSSection.properties section with
      | Some props => convertProperties editor props pos
      | None => Ok []
      end
  | None => Ok []
  end.

(** The command [emmet.convert-data-url] (lines 17-30). *)
Definition convertDataURLCommand (editor : TextEditor) : result (list Effect) :=
  let caret := getCaret editor in
  match syntaxFromPos editor caret with
  | Some (c :: name) =>
      let syntaxName := c :: name in
      if isHTML syntaxName then convertHTML editor caret
      else if isCSS syntaxName then convertCSS editor caret
      else Ok []
  | _ => Ok []
  end.

End DataURL.

(** Stand-ins for the collaborators of the conversion: the text of a range
    is the slice of the buffer, a file is located under [/site/], holds
    three bytes and has the extension [png]. *)
Module DataFixture.

Definition fileHost (tag : option OpenTag.t) (section : option CSSSection.t)
  (size : option Z) : DataHost :=
  {| syntaxFromPos := fun editor _ => Some (documentSyntax editor);
     getOpenTag := fun _ _ => tag;
     cssSection := fun _ _ _ => section;
     isURL := fun s => startsWith s (lit "http");
     isQuoted := fun v => match v with q :: _ => isQuoteChar q | [] => false end;
     locateFile := fun _ src => Some (lit "/site/" ++ src);
     readFile := fun _ => Some [Byte.x00; Byte.x01; Byte.x02];
     b64encode := fun _ => lit "AAEC";
     getTextInRange := fun editor r =>
       slice (content editor) (NovaRange.start r) (NovaRange.end_ r);
     containsIndex := fun r i => (NovaRange.start r <=? i) && (i <=? NovaRange.end_ r);
     documentPath := fun _ => Some (lit "/site/index.html");
     fileSize := fun _ => size;
     splitext := fun _ => lit "png";
     toLowerCase := fun s => s;
     inheritedProperty := fun _ => None |}.

(** The buffer [<img src=.a.png.>] (the dots are double quotes) and its
    open tag: the value of [src] with its quotes spans [9, 16). *)
Definition imgElement : jsstring :=
  lit "<img src=" ++ [34%N] ++ lit "a.png" ++ [34%N] ++ lit ">".

Definition imgTag : OpenTag.t :=
  {| OpenTag.name := lit "img";
     OpenTag.attributes :=
       Some [{| AttributeSpan.token :=
                  {| AttributeToken.name := lit "src";
                     AttributeToken.value := Some ([34%N] ++ lit "a.png" ++ [34%N]) |};
                AttributeSpan.valueStart := 9;
                AttributeSpan.valueEnd := 16 |}] |}.

(** The buffer [a{b:url('a.png')}]: the value token spans [4, 16). *)
Definition urlRule : jsstring := lit "a{b:url('a.png')}".

Definition urlToken : NovaRange.t := {| NovaRange.start := 4; NovaRange.end_ := 16 |}.

Definition urlProperty : NovaCSSProperty.t :=
  {| NovaCSSProperty.value := urlToken; NovaCSSProperty.valueTokens := [urlToken] |}.

Definition otherProperty : NovaCSSProperty.t :=
  {| NovaCSSProperty.value := {| NovaRange.start := 20; NovaRange.end_ := 25 |};
     NovaCSSProperty.valueTokens := [] |}.

End DataFixture.

(** * Properties *)

(** ** Strings *)

Lemma eqb_eq (a b : jsstring) : eqb a b = true <-> a = b.
Proof.
  revert b; induction a as [|x a IH]; intros [|y b]; simpl;
    try (split; [discriminate | discriminate]); [tauto|].
  rewrite andb_true_iff, N.eqb_eq, IH. split.
  - intros [-> ->]; reflexivity.
  - intros H; injection H; auto.
Qed.

Lemma eqb_refl (a : jsstring) : eqb a a = true.
Proof. apply eqb_eq; reflexivity. Qed.

Lemma includes_unit (s : jsstring) (c : char) :
  includes s [c] = existsb (N.eqb c) s.
Proof.
  induction s as [|x s IH]; simpl; [reflexivity|].
  rewrite IH. rewrite (N.eqb_sym x c).
  destruct s; simpl; rewrite ?andb_true_r; reflexivity.
Qed.

Lemma charAt_app_mid (l r : jsstring) (c : char) :
  charAt (l ++ c :: r) (length l) = Some c.
Proof.
  unfold charAt, length.
  destruct (Z.of_nat (List.length l) <? 0) eqn:E; [apply Z.ltb_lt in E; lia|].
  rewrite Nat2Z.id. rewrite nth_error_app2 by lia.
  rewrite Nat.sub_diag. reflexivity.
Qed.

Lemma pairsEndIncludes_Some (c : char) :
  pairsEndIncludes (Some c) = isPairEnd c.
Proof.
  unfold pairsEndIncludes, pairsEnd, pairs, isPairEnd. simpl.
  rewrite orb_false_r, orb_assoc. reflexivity.
Qed.

Lemma existsb_code (c : char) (s : jsstring) :
  In c s -> existsb (N.eqb c) s = true.
Proof.
  intros H. apply existsb_exists. exists c. split; [exact H | apply N.eqb_refl].
Qed.

Lemma existsb_none (p : char -> bool) (s : jsstring) :
  (forall c, In c s -> p c = false) -> existsb p s = false.
Proof.
  intros H. destruct (existsb p s) eqn:E; [|reflexivity].
  apply existsb_exists in E. destruct E as [c [Hin Hp]].
  rewrite (H c Hin) in Hp. discriminate.
Qed.

(** ** The stop condition *)

(** The fuel that [shouldStopTracking] gives the loop is enough: where
    [walkBack] stops, the loop of lines 175-181 has left. *)
Lemma walkBack_exits (text : jsstring) (start : Z) (fuel : nat) :
  forall target, target - start <= Z.of_nat fuel ->
    let r := walkBack fuel text start target in
    r <= target /\
    (r <= start \/ pairsEndIncludes (charAt text (r - start - 1)) = false).
Proof.
  induction fuel as [|fuel IH]; intros target Hfuel; simpl.
  - split; [lia | left; lia].
  - destruct (target >? start) eqn:Hgt.
    + destruct (pairsEndIncludes (charAt text (target - start - 1))) eqn:Hc.
      * destruct (IH (target - 1)) as [Hle Hexit]; [lia|].
        split; [lia | exact Hexit].
      * split; [lia | right; exact Hc].
    + split; [lia | left]. rewrite Z.gtb_ltb in Hgt. apply Z.ltb_ge in Hgt. lia.
Qed.

Lemma trailingClosers_snoc (l : jsstring) (c : char) :
  trailingClosers (l ++ [c]) =
  if isPairEnd c then S (trailingClosers l) else O.
Proof.
  unfold trailingClosers. rewrite rev_app_distr. reflexivity.
Qed.

(** On a text that starts at [start], the loop lands behind the closing
    characters that end the part of the text before [target]. *)
Lemma walkBack_app (start : Z) (l : jsstring) :
  forall (r : jsstring) (fuel : nat),
    (List.length l <= fuel)%nat ->
    walkBack fuel (l ++ r) start (start + JS.length l) =
    start + JS.length l - Z.of_nat (trailingClosers l).
Proof.
  induction l as [|c l IH] using rev_ind; intros r fuel Hfuel.
  - unfold JS.length; simpl. rewrite Z.add_0_r.
    destruct fuel; simpl; [lia|].
    rewrite Z.gtb_ltb, Z.ltb_irrefl.
    lia.
  - unfold JS.length in *. rewrite length_app in *. simpl List.length in *.
    destruct fuel as [|fuel]; [lia|].
    simpl walkBack.
    replace (start + Z.of_nat (List.length l + 1) >? start) with true
      by (symmetry; apply Z.gtb_lt; lia).
    replace (start + Z.of_nat (List.length l + 1) - start - 1)
      with (JS.length l) by (unfold JS.length; lia).
    rewrite <- app_assoc. simpl app.
    rewrite charAt_app_mid, pairsEndIncludes_Some, trailingClosers_snoc.
    destruct (isPairEnd c).
    + replace (start + Z.of_nat (List.length l + 1) - 1)
        with (start + Z.of_nat (List.length l)) by lia.
      rewrite IH by lia. lia.
    + lia.
Qed.

Lemma walkTrailing_count (start : Z) (s : jsstring) :
  forall target, JS.length s <= target - start ->
    walkTrailing s start target = target - Z.of_nat (leadingClosers s).
Proof.
  induction s as [|c s IH]; intros target Hlen; simpl; [lia|].
  unfold JS.length in *. simpl List.length in Hlen.
  replace (target >? start) with true
    by (symmetry; apply Z.gtb_lt; lia).
  simpl. destruct (isPairEnd c); [|lia].
  rewrite IH by lia. lia.
Qed.

(** When the text is as long as the range, the loop of the source and the
    walk of section 4.5 agree: both step over the closing characters that
    end the text. *)
Lemma walkBack_aligned (text : jsstring) (start target : Z) :
  JS.length text = target - start ->
  walkBack (Z.to_nat (target - start)) text start target =
  target - Z.of_nat (trailingClosers text)
  /\ specWalk text start target = target - Z.of_nat (trailingClosers text).
Proof.
  intros Hlen. split.
  - replace target with (start + JS.length text) at 2 3 by lia.
    rewrite <- (app_nil_r text) at 1.
    apply walkBack_app. unfold JS.length in Hlen. lia.
  - unfold specWalk, trailingClosers. apply walkTrailing_count.
    unfold JS.length in *. rewrite length_rev. lia.
Qed.

(** The branches of [shouldStopTracking] for a typed tracker with an error
    parse and a text of one line without tab stop. *)
Lemma error_branch_unfolded (tracker : AbbreviationTracker)
  (text : jsstring) (errorPos pos : Z) :
  forced tracker = false ->
  abbreviation tracker = Some (AbbreviationError text errorPos) ->
  (forall c, In c text -> c <> 10%N /\ c <> 13%N /\ c <> 65532%N) ->
  shouldStopTracking tracker pos =
  (snd (range tracker) =? pos) || (errorPos =? 0)
  || (walkBack (Z.to_nat (snd (range tracker) - fst (range tracker))) text
        (fst (range tracker)) (snd (range tracker)) =? pos).
Proof.
  intros Hforced Habbr Hclean. unfold shouldStopTracking.
  rewrite Hforced, Habbr. simpl abbr.
  unfold tabStop. rewrite includes_unit.
  assert (Hbreak : existsb isLineBreak text = false).
  { apply existsb_none. intros c Hin. destruct (Hclean c Hin) as [H1 [H2 _]].
    unfold isLineBreak. apply orb_false_iff.
    split; apply N.eqb_neq; assumption. }
  assert (Htab : existsb (N.eqb 65532) text = false).
  { apply existsb_none. intros c Hin. destruct (Hclean c Hin) as [_ [_ H]].
    apply N.eqb_neq. congruence. }
  rewrite Hbreak, Htab. simpl.
  destruct (snd (range tracker) =? pos); [reflexivity|].
  destruct (errorPos =? 0); reflexivity.
Qed.

(** C5: a forced tracker is never stopped: for every caret position
    [shouldStopTracking] answers [false] once [forced] is set, whatever the
    parse result is (an error, a text of several lines, no abbreviation at
    all). *)
Theorem shouldStopTracking_forced (tracker : AbbreviationTracker) (pos : Z) :
  forced tracker = true -> shouldStopTracking tracker pos = false.
Proof.
  intros Hforced. unfold shouldStopTracking. rewrite Hforced. reflexivity.
Qed.

(** A forced tracker whose text has two lines and an error at its start,
    with the caret at the end of its range, and one without abbreviation. *)
Lemma shouldStopTracking_forced_witness :
  shouldStopTracking
    {| range := (0, 3); forced := true; offset := 0;
       abbreviation := Some (AbbreviationError (lit "a" ++ [10%N] ++ lit "b") 0) |} 3
  = false
  /\ shouldStopTracking
       {| range := (0, 3); forced := true; offset := 0; abbreviation := None |} 1
     = false.
Proof.
  split; apply shouldStopTracking_forced; reflexivity.
Defined.

(** C6: a typed (not forced) tracker whose text holds a line feed, a
    carriage return or the tab-stop character U+FFFC is stopped at every
    caret position, for a valid parse and for an error parse alike. *)
Theorem shouldStopTracking_line_break_or_tab_stop
  (tracker : AbbreviationTracker) (parsed : ParsedAbbreviation) (pos : Z) :
  forced tracker = false ->
  abbreviation tracker = Some parsed ->
  In 10%N (abbr parsed) \/ In 13%N (abbr parsed) \/ In 65532%N (abbr parsed) ->
  shouldStopTracking tracker pos = true.
Proof.
  intros Hforced Habbr Hin. unfold shouldStopTracking.
  rewrite Hforced, Habbr. unfold tabStop. rewrite includes_unit.
  destruct Hin as [H | [H | H]].
  - replace (existsb isLineBreak (abbr parsed)) with true; [reflexivity|].
    symmetry. apply existsb_exists. exists 10%N. split; [exact H | reflexivity].
  - replace (existsb isLineBreak (abbr parsed)) with true; [reflexivity|].
    symmetry. apply existsb_exists. exists 13%N. split; [exact H | reflexivity].
  - rewrite (existsb_code _ _ H), orb_true_r. reflexivity.
Qed.

(** A valid parse whose text ends in a tab stop, the caret inside the
    range. *)
Lemma shouldStopTracking_line_break_or_tab_stop_witness :
  shouldStopTracking
    {| range := (2, 5); forced := false; offset := 0;
       abbreviation := Some (AbbreviationValid (lit "di" ++ tabStop)) |} 3
  = true.
Proof.
  apply (shouldStopTracking_line_break_or_tab_stop _
           (AbbreviationValid (lit "di" ++ tabStop)));
    [reflexivity | reflexivity | right; right; simpl; auto].
Defined.

(** C4: the walk of lines 173-181 reads the text at [targetPos - start - 1],
    an index counted from the start of the range.  For a span that opens
    with the JSX prefix (buffer [<ul>()], range [0, 6), offset 1, text
    [ul>()]) that index lies behind the end of the text, the walk does not
    move, and with the caret before the closing parenthesis
    [shouldStopTracking] answers [false], where steps 4a-4c answer [true];
    the same text without prefix (range [0, 5), caret 4) is stopped. *)
Theorem shouldStopTracking_prefixed_span :
  sliceFrom (lit "<ul>()") 1 = lit "ul>()"
  /\ shouldStopTracking (Fixture.errorTracker 0 6 1 "ul>()" 4) 5 = false
  /\ specStopOnError (0, 6) (lit "ul>()") 4 5 = true
  /\ shouldStopTracking (Fixture.errorTracker 0 5 0 "ul>()" 4) 4 = true.
Proof.
  repeat split; vm_compute; reflexivity.
Qed.

(** X1: for a typed tracker with an error parse whose text is as long as
    its range (no prefix) and holds neither line break nor tab stop, the stop
    condition is that of steps 4a-4c: the caret is at the end of the range,
    or the error is at position 0, or the caret is where the closing
    characters that end the text begin. *)
Theorem shouldStopTracking_error_aligned (tracker : AbbreviationTracker)
  (text : jsstring) (errorPos pos : Z) :
  forced tracker = false ->
  abbreviation tracker = Some (AbbreviationError text errorPos) ->
  (forall c, In c text -> c <> 10%N /\ c <> 13%N /\ c <> 65532%N) ->
  JS.length text = snd (range tracker) - fst (range tracker) ->
  shouldStopTracking tracker pos = specStopOnError (range tracker) text errorPos pos
  /\ (shouldStopTracking tracker pos = true <->
      pos = snd (range tracker) \/ errorPos = 0
      \/ pos = snd (range tracker) - Z.of_nat (trailingClosers text)).
Proof.
  intros Hforced Habbr Hclean Hlen.
  rewrite (error_branch_unfolded _ _ _ _ Hforced Habbr Hclean).
  destruct (walkBack_aligned text _ _ Hlen) as [Hcode Hspec].
  unfold specStopOnError. rewrite Hcode, Hspec. split; [reflexivity|].
  rewrite !orb_true_iff, !Z.eqb_eq. intuition lia.
Qed.

(** The text [a(+)] over the range [3, 7) with the caret before its closing
    parenthesis. *)
Lemma shouldStopTracking_error_aligned_witness :
  shouldStopTracking (Fixture.errorTracker 3 7 0 "a(+)" 2) 6 = true.
Proof.
  apply (shouldStopTracking_error_aligned
           (Fixture.errorTracker 3 7 0 "a(+)" 2) (lit "a(+)") 2 6);
    [reflexivity | reflexivity | | reflexivity | right; right; reflexivity].
  intros c Hin. simpl in Hin.
  repeat (destruct Hin as [<- | Hin]; [repeat split; discriminate|]).
  destruct Hin.
Defined.

(** ** The context resolver *)

Lemma last_snoc {T : Type} (l : list T) (x : T) : last (l ++ [x]) = Some x.
Proof.
  unfold last. rewrite length_app. simpl List.length.
  replace (0 <? List.length l + 1)%nat with true
    by (symmetry; apply Nat.ltb_lt; lia).
  rewrite nth_error_app2 by lia.
  replace (List.length l + 1 - 1 - List.length l)%nat with O by lia.
  reflexivity.
Qed.

Lemma last_cases {T : Type} (l : list T) :
  (l = [] /\ last l = None) \/ (exists l' x, l = l' ++ [x] /\ last l = Some x).
Proof.
  destruct l as [|y l] using rev_ind.
  - left. split; reflexivity.
  - right. exists l, y. split; [reflexivity | apply last_snoc].
Qed.

Section ResolverFacts.

Context {OutputOptions TrackerStore : Type} {host : Host OutputOptions TrackerStore}.

(** The three cases of [getCSSAbbreviationContext]. *)
Lemma getCSSAbbreviationContext_cases (ctx : CSSContext.t) (current : CSSMatch.t) :
  CSSContext.current ctx = Some current ->
  (forall before parent,
      CSSMatch.type current = PropertyValue ->
      CSSContext.ancestors ctx = before ++ [parent] ->
      getCSSAbbreviationContext ctx = CSSMatch.name parent)
  /\ (CSSMatch.type current = Selector ->
      CSSContext.ancestors ctx = [] ->
      getCSSAbbreviationContext ctx = scopeSection)
  /\ (~ (CSSMatch.type current = PropertyValue /\ CSSContext.ancestors ctx <> []) ->
      ~ (CSSMatch.type current = Selector /\ CSSContext.ancestors ctx = []) ->
      getCSSAbbreviationContext ctx = scopeGlobal).
Proof.
  intros Hcur. unfold getCSSAbbreviationContext. rewrite Hcur.
  split; [|split].
  - intros before parent Hty Hanc. rewrite Hty, Hanc, last_snoc. reflexivity.
  - intros Hty Hanc. rewrite Hty, Hanc. reflexivity.
  - intros Hvalue Hsel.
    destruct (last_cases (CSSContext.ancestors ctx))
      as [[Hnil Hlast] | [l' [x [Hsnoc Hlast]]]]; rewrite Hlast.
    + destruct (CSSMatch.type current) eqn:Hty; simpl; try reflexivity.
      exfalso. apply Hsel. split; [reflexivity | exact Hnil].
    + destruct (CSSMatch.type current) eqn:Hty; simpl; try reflexivity.
      exfalso. apply Hvalue. split; [reflexivity|].
      rewrite Hsnoc. destruct l'; discriminate.
Qed.

(** C1: when the stylesheet branch allows activation, the name of the
    resolved context is: for a property value with at least one ancestor,
    the name of the nearest (last) ancestor; for a selector without any
    ancestor (a top-level selector), the section marker; in every other
    allowed case (among them a selector inside the body of another rule),
    the global marker. *)
Theorem getCSSActivationContext_scope (editor : TextEditor) (pos : Z)
  (syntax : jsstring) (ctx : CSSContext.t) (cfg : UserConfig.t OutputOptions) :
  getCSSActivationContext editor pos syntax ctx = Some cfg ->
  exists current name,
    CSSContext.current ctx = Some current
    /\ UserConfig.type cfg = Stylesheet
    /\ UserConfig.context cfg =
       Some {| AbbreviationContext.name := name;
               AbbreviationContext.attributes := None |}
    /\ (forall before parent,
          CSSMatch.type current = PropertyValue ->
          CSSContext.ancestors ctx = before ++ [parent] ->
          name = CSSMatch.name parent)
    /\ (CSSMatch.type current = Selector ->
        CSSContext.ancestors ctx = [] ->
        name = scopeSection)
    /\ (~ (CSSMatch.type current = PropertyValue /\ CSSContext.ancestors ctx <> []) ->
        ~ (CSSMatch.type current = Selector /\ CSSContext.ancestors ctx = []) ->
        name = scopeGlobal).
Proof.
  unfold getCSSActivationContext.
  destruct (CSSContext.current ctx) as [current|] eqn:Hcur; [|discriminate].
  destruct (TokenType_eqb (CSSMatch.type current) PropertyName
            || TokenType_eqb (CSSMatch.type current) PropertyValue
            || isTypingBeforeSelector editor pos ctx); [|discriminate].
  intros H. injection H as <-.
  exists current, (getCSSAbbreviationContext ctx). simpl.
  repeat (split; [reflexivity|]).
  apply getCSSAbbreviationContext_cases. exact Hcur.
Qed.

(** The loop of [getEmbeddedStyleSyntax] returns at the first attribute
    named [type]. *)
Lemma firstTypeAttribute_found (earlier later : list AttributeToken.t)
  (attr : AttributeToken.t) :
  (forall a, In a earlier -> AttributeToken.name a <> lit "type") ->
  AttributeToken.name attr = lit "type" ->
  firstTypeAttribute (earlier ++ attr :: later) = attributeValue attr.
Proof.
  intros Hearlier Hattr. induction earlier as [|a earlier IH]; simpl.
  - rewrite Hattr, eqb_refl. reflexivity.
  - destruct (eqb (AttributeToken.name a) (lit "type")) eqn:E.
    + apply eqb_eq in E. exfalso. apply (Hearlier a); [left; reflexivity | exact E].
    + apply IH. intros b Hb. apply Hearlier. right. exact Hb.
Qed.

Lemma firstTypeAttribute_absent (attrs : list AttributeToken.t) :
  (forall a, In a attrs -> AttributeToken.name a <> lit "type") ->
  firstTypeAttribute attrs = None.
Proof.
  intros Habsent. induction attrs as [|a attrs IH]; simpl; [reflexivity|].
  destruct (eqb (AttributeToken.name a) (lit "type")) eqn:E.
  - apply eqb_eq in E. exfalso. apply (Habsent a); [left; reflexivity | exact E].
  - apply IH. intros b Hb. apply Habsent. right. exact Hb.
Qed.

Lemma getActivationContext_css_of_markup (editor : TextEditor) (pos : Z)
  (ctx : HTMLContext.t) (cssCtx : CSSContext.t) :
  isCSS (docSyntax editor) = false ->
  isHTML (docSyntax editor) = true ->
  getHTMLContext (getContent editor) pos (isXML (docSyntax editor)) = Ok ctx ->
  HTMLContext.css ctx = Some cssCtx ->
  getActivationContext editor pos =
  Ok (getCSSActivationContext editor pos (embeddedSyntax editor ctx) cssCtx).
Proof.
  intros Hcss Hhtml Hquery Hembedded. unfold getActivationContext.
  rewrite Hcss, Hhtml, Hquery. simpl. rewrite Hembedded. reflexivity.
Qed.

(** C2: when the markup query reports an embedded stylesheet, the resolver
    hands it to the stylesheet branch with this syntax: the value of the
    first [type] attribute of the nearest ancestor if that ancestor is named
    [style] and the value is not empty; the syntax of the document if the
    nearest ancestor is missing or has another name, if it has no [type]
    attribute, or if the first one has no value or the empty value. *)
Theorem getActivationContext_embedded_style (editor : TextEditor) (pos : Z)
  (ctx : HTMLContext.t) (cssCtx : CSSContext.t) :
  isCSS (docSyntax editor) = false ->
  isHTML (docSyntax editor) = true ->
  getHTMLContext (getContent editor) pos (isXML (docSyntax editor)) = Ok ctx ->
  HTMLContext.css ctx = Some cssCtx ->
  exists syntax,
    getActivationContext editor pos =
    Ok (getCSSActivationContext editor pos syntax cssCtx)
    /\ (HTMLContext.ancestors ctx = [] -> syntax = docSyntax editor)
    /\ (forall before parent,
          HTMLContext.ancestors ctx = before ++ [parent] ->
          ContextTag.name parent <> lit "style" ->
          syntax = docSyntax editor)
    /\ (forall before parent,
          HTMLContext.ancestors ctx = before ++ [parent] ->
          ContextTag.name parent = lit "style" ->
          (forall a,
              In a (attributes (tagSource (getContent editor) parent) (lit "style")) ->
              AttributeToken.name a <> lit "type") ->
          syntax = docSyntax editor)
    /\ (forall before parent earlier attr later,
          HTMLContext.ancestors ctx = before ++ [parent] ->
          ContextTag.name parent = lit "style" ->
          attributes (tagSource (getContent editor) parent) (lit "style") =
            earlier ++ attr :: later ->
          (forall a, In a earlier -> AttributeToken.name a <> lit "type") ->
          AttributeToken.name attr = lit "type" ->
          (forall v, attributeValue attr = Some v -> v <> [] -> syntax = v)
          /\ (attributeValue attr = None \/ attributeValue attr = Some [] ->
              syntax = docSyntax editor)).
Proof.
  intros Hcss Hhtml Hquery Hembedded.
  exists (embeddedSyntax editor ctx).
  split; [apply getActivationContext_css_of_markup; assumption|].
  unfold embeddedSyntax, getEmbeddedStyleSyntax.
  split; [|split; [|split]].
  - intros Hnil. rewrite Hnil. reflexivity.
  - intros before parent Hanc Hname. rewrite Hanc, last_snoc.
    destruct (eqb (ContextTag.name parent) (lit "style")) eqn:E; [|reflexivity].
    apply eqb_eq in E. contradiction.
  - intros before parent Hanc Hname Habsent.
    rewrite Hanc, last_snoc, Hname, eqb_refl.
    rewrite (firstTypeAttribute_absent _ Habsent). reflexivity.
  - intros before parent earlier attr later Hanc Hname Hattrs Hearlier Hattr.
    rewrite Hanc, last_snoc, Hname, eqb_refl, Hattrs.
    rewrite (firstTypeAttribute_found earlier later attr Hearlier Hattr).
    split.
    + intros v Hv Hne. rewrite Hv. destruct v; [contradiction | reflexivity].
    + intros [Hv | Hv]; rewrite Hv; reflexivity.
Qed.

(** C3: the resolver has no handler: what a structural query throws is
    what [getActivationContext] throws, for a stylesheet document and for
    a markup document; it returns (a context or none) only when the
    query it made returned; and the exception leaves the change listener
    too: whenever [onDidChange] asks for the context at the caret (no
    tracker after [handleChange], a single forward insertion, tracking
    allowed, a candidate start found) and the query throws, the listener
    is left by that exception, with [lastPos] as it was and the registry
    as [handleChange] left it. *)
Theorem getActivationContext_propagates (editor : TextEditor) (pos : Z) :
  (forall e,
      isCSS (docSyntax editor) = true ->
      getCSSContext (getContent editor) pos = Throw e ->
      getActivationContext editor pos = Throw e)
  /\ (forall e,
        isCSS (docSyntax editor) = false ->
        isHTML (docSyntax editor) = true ->
        getHTMLContext (getContent editor) pos (isXML (docSyntax editor)) = Throw e ->
        getActivationContext editor pos = Throw e)
  /\ (forall r,
        getActivationContext editor pos = Ok r ->
        (isCSS (docSyntax editor) = true ->
         exists ctx, getCSSContext (getContent editor) pos = Ok ctx)
        /\ (isCSS (docSyntax editor) = false ->
            isHTML (docSyntax editor) = true ->
            exists ctx,
              getHTMLContext (getContent editor) pos (isXML (docSyntax editor)) = Ok ctx))
  /\ (forall e (nova : Nova) (s : Session TrackerStore) (st1 : TrackerStore),
        (isCSS (docSyntax editor) = true
         /\ getCSSContext (getContent editor) (getCaret editor) = Throw e)
        \/ (isCSS (docSyntax editor) = false
            /\ isHTML (docSyntax editor) = true
            /\ getHTMLContext (getContent editor) (getCaret editor)
                 (isXML (docSyntax editor)) = Throw e) ->
        handleChange editor (store s) = (None, st1) ->
        lastPos s = Some (getCaret editor - 1) ->
        allowTracking nova editor (getCaret editor) = true ->
        (exists span, candidateSpan editor (getCaret editor) = Some span) ->
        onDidChange nova editor s =
        (Throw e, {| lastPos := lastPos s; store := st1 |})).
Proof.
  split; [|split; [|split]].
  - unfold getActivationContext.
    intros e Hcss Hthrow. rewrite Hcss, Hthrow. reflexivity.
  - unfold getActivationContext.
    intros e Hcss Hhtml Hthrow. rewrite Hcss, Hhtml, Hthrow. reflexivity.
  - unfold getActivationContext. intros r Hok. split.
    + intros Hcss. rewrite Hcss in Hok.
      destruct (getCSSContext (getContent editor) pos) as [ctx|e];
        [exists ctx; reflexivity | discriminate].
    + intros Hcss Hhtml. rewrite Hcss, Hhtml in Hok.
      destruct (getHTMLContext (getContent editor) pos (isXML (docSyntax editor)))
        as [ctx|e]; [exists ctx; reflexivity | discriminate].
  - intros e nova s st1 Hquery Hchange Hlast Hallow [span Hspan].
    assert (Hthrow : getActivationContext editor (getCaret editor) = Throw e).
    { unfold getActivationContext.
      destruct Hquery as [[Hcss Hq] | [Hcss [Hhtml Hq]]].
      - rewrite Hcss, Hq. reflexivity.
      - rewrite Hcss, Hhtml, Hq. reflexivity. }
    unfold onDidChange. rewrite Hchange, Hlast, Z.eqb_refl, Hallow. simpl.
    unfold startAbbreviationTracking, bind, liftResult.
    rewrite Hspan, Hthrow. reflexivity.
Qed.

End ResolverFacts.

(** ** The boundary detector *)

Lemma substr_length (editor : TextEditor) (a b : Z) :
  0 <= a ->
  JS.length (substr editor (a, b)) =
  Z.max 0 (Z.min b (JS.length (content editor)) - a).
Proof.
  intros Ha. unfold substr, JS.length. simpl fst; simpl snd.
  rewrite length_firstn, length_skipn. lia.
Qed.

Lemma substr_charAt (editor : TextEditor) (a b i : Z) :
  0 <= a -> 0 <= i ->
  charAt (substr editor (a, b)) i =
  if i <? b - a then charAt (content editor) (a + i) else None.
Proof.
  intros Ha Hi. unfold substr, charAt. simpl fst; simpl snd.
  replace (i <? 0) with false by (symmetry; apply Z.ltb_ge; lia).
  replace (a + i <? 0) with false by (symmetry; apply Z.ltb_ge; lia).
  rewrite nth_error_firstn, nth_error_skipn.
  destruct (i <? b - a) eqn:E.
  - apply Z.ltb_lt in E.
    replace (Z.to_nat i <? Z.to_nat (Z.max (Z.max 0 a) b - Z.max 0 a))%nat
      with true by (symmetry; apply Nat.ltb_lt; lia).
    f_equal. lia.
  - apply Z.ltb_ge in E.
    replace (Z.to_nat i <? Z.to_nat (Z.max (Z.max 0 a) b - Z.max 0 a))%nat
      with false by (symmetry; apply Nat.ltb_ge; lia).
    reflexivity.
Qed.

Lemma charAt_in_range (s : jsstring) (i : Z) (c : char) :
  charAt s i = Some c -> 0 <= i < JS.length s.
Proof.
  unfold charAt, JS.length. intros H.
  destruct (i <? 0) eqn:E; [discriminate|]. apply Z.ltb_ge in E.
  assert (Z.to_nat i < List.length s)%nat by (apply nth_error_Some; congruence).
  lia.
Qed.

Lemma charAt_two (s : jsstring) (p c : char) :
  JS.length s = 2 -> charAt s 0 = Some p -> charAt s 1 = Some c -> s = [p; c].
Proof.
  unfold JS.length, charAt.
  destruct s as [|x [|y [|z s]]]; simpl; intros Hlen H0 H1; try lia.
  congruence.
Qed.

Section BoundaryFacts.

Context {OutputOptions TrackerStore : Type} {host : Host OutputOptions TrackerStore}.

(** The window ends with the character before the caret. *)
Lemma prefixWindow_last (editor : TextEditor) (pos : Z) :
  pos <= JS.length (content editor) ->
  charAt (prefixWindow editor pos) (JS.length (prefixWindow editor pos) - 1) =
  charAt (content editor) (pos - 1).
Proof.
  intros Hpos. unfold prefixWindow.
  rewrite substr_length by lia.
  destruct (Z_le_gt_dec pos 0) as [Hle | Hgt].
  - replace (Z.max 0 (Z.min pos (JS.length (content editor)) - Z.max 0 (pos - 2)) - 1)
      with (-1) by lia.
    unfold charAt at 1 2. simpl.
    replace (pos - 1 <? 0) with true by (symmetry; apply Z.ltb_lt; lia).
    reflexivity.
  - rewrite substr_charAt by lia.
    replace (Z.max 0 (Z.min pos (JS.length (content editor)) - Z.max 0 (pos - 2)) - 1
             <? pos - Z.max 0 (pos - 2)) with true
      by (symmetry; apply Z.ltb_lt; lia).
    f_equal. lia.
Qed.

(** The window has two characters exactly when two characters of the buffer
    come before the caret, and then it holds them. *)
Lemma prefixWindow_two (editor : TextEditor) (pos : Z) (p c : char) :
  prefixWindow editor pos = [p; c] <->
  charAt (content editor) (pos - 2) = Some p
  /\ charAt (content editor) (pos - 1) = Some c.
Proof.
  unfold prefixWindow. split.
  - intros Hwin.
    assert (Hlen : JS.length (substr editor (Z.max 0 (pos - 2), pos)) = 2)
      by (rewrite Hwin; reflexivity).
    rewrite substr_length in Hlen by lia.
    assert (H0 : charAt (substr editor (Z.max 0 (pos - 2), pos)) 0 = Some p)
      by (rewrite Hwin; reflexivity).
    assert (H1 : charAt (substr editor (Z.max 0 (pos - 2), pos)) 1 = Some c)
      by (rewrite Hwin; reflexivity).
    rewrite substr_charAt in H0, H1 by lia.
    replace (0 <? pos - Z.max 0 (pos - 2)) with true in H0
      by (symmetry; apply Z.ltb_lt; lia).
    replace (1 <? pos - Z.max 0 (pos - 2)) with true in H1
      by (symmetry; apply Z.ltb_lt; lia).
    replace (Z.max 0 (pos - 2) + 0) with (pos - 2) in H0 by lia.
    replace (Z.max 0 (pos - 2) + 1) with (pos - 1) in H1 by lia.
    split; assumption.
  - intros [Hp Hc].
    pose proof (charAt_in_range _ _ _ Hp) as Rp.
    pose proof (charAt_in_range _ _ _ Hc) as Rc.
    apply charAt_two.
    + rewrite substr_length by lia. lia.
    + rewrite substr_charAt by lia.
      replace (0 <? pos - Z.max 0 (pos - 2)) with true
        by (symmetry; apply Z.ltb_lt; lia).
      replace (Z.max 0 (pos - 2) + 0) with (pos - 2) by lia. exact Hp.
    + rewrite substr_charAt by lia.
      replace (1 <? pos - Z.max 0 (pos - 2)) with true
        by (symmetry; apply Z.ltb_lt; lia).
      replace (Z.max 0 (pos - 2) + 1) with (pos - 1) by lia. exact Hc.
Qed.

(** The text of one character after the caret. *)
Lemma substr_after_caret (editor : TextEditor) (pos : Z) (close : char) :
  eqb (substr editor (pos, pos + 1)) [close] = true <->
  charAt (content editor) pos = Some close.
Proof.
  rewrite eqb_eq. split.
  - intros Hsub.
    destruct (Z_lt_ge_dec pos 0) as [Hneg | Hpos].
    + exfalso. unfold substr in Hsub. simpl fst in Hsub; simpl snd in Hsub.
      replace (Z.max (Z.max 0 pos) (pos + 1) - Z.max 0 pos) with 0 in Hsub by lia.
      simpl in Hsub. discriminate.
    + assert (H0 : charAt (substr editor (pos, pos + 1)) 0 = Some close)
        by (rewrite Hsub; reflexivity).
      rewrite substr_charAt in H0 by lia.
      replace (0 <? pos + 1 - pos) with true in H0
        by (symmetry; apply Z.ltb_lt; lia).
      replace (pos + 0) with pos in H0 by lia. exact H0.
  - intros Hc. pose proof (charAt_in_range _ _ _ Hc) as R.
    assert (Hlen : JS.length (substr editor (pos, pos + 1)) = 1)
      by (rewrite substr_length by lia; lia).
    assert (H0 : charAt (substr editor (pos, pos + 1)) 0 = Some close).
    { rewrite substr_charAt by lia.
      replace (0 <? pos + 1 - pos) with true by (symmetry; apply Z.ltb_lt; lia).
      replace (pos + 0) with pos by lia. exact Hc. }
    revert Hlen H0. unfold JS.length, charAt.
    destruct (substr editor (pos, pos + 1)) as [|x [|y s]]; simpl; intros; try lia.
    congruence.
Qed.

Lemma pairsLookup_In (open close : char) :
  pairsLookup pairs open = Some close <-> In (open, close) pairs.
Proof.
  unfold pairs. simpl. split.
  - destruct (N.eqb_spec open 123) as [-> | _];
      [intros H; injection H as <-; auto|].
    destruct (N.eqb_spec open 91) as [-> | _];
      [intros H; injection H as <-; auto|].
    destruct (N.eqb_spec open 40) as [-> | _];
      [intros H; injection H as <-; auto|].
    discriminate.
  - intros [H | [H | [H | []]]]; injection H as <- <-; reflexivity.
Qed.

(** Lines 120-123 on the window of line 102: [end] moves by one exactly
    when an opening character stands before the caret and its closing
    character after it. *)
Lemma absorbPair_window (editor : TextEditor) (pos : Z) :
  (pairedAtCaret editor pos ->
   absorbPair editor pos (prefixWindow editor pos) = pos + 1)
  /\ (~ pairedAtCaret editor pos ->
      absorbPair editor pos (prefixWindow editor pos) = pos).
Proof.
  unfold absorbPair, pairedAtCaret. split.
  - intros [open [close [Hpair [Hbefore Hafter]]]].
    pose proof (charAt_in_range _ _ _ Hbefore) as R.
    rewrite prefixWindow_last by lia. rewrite Hbefore.
    apply pairsLookup_In in Hpair. rewrite Hpair.
    apply substr_after_caret in Hafter. rewrite Hafter. reflexivity.
  - intros Hnot.
    destruct (charAt (prefixWindow editor pos) (JS.length (prefixWindow editor pos) - 1))
      as [c|] eqn:Hlast; [|reflexivity].
    destruct (pairsLookup pairs c) as [close|] eqn:Hpair; [|reflexivity].
    destruct (eqb (substr editor (pos, pos + 1)) [close]) eqn:Hafter; [|reflexivity].
    exfalso. apply Hnot. apply substr_after_caret in Hafter.
    pose proof (charAt_in_range _ _ _ Hafter) as R.
    rewrite prefixWindow_last in Hlast by lia.
    exists c, close. split; [apply pairsLookup_In; exact Hpair|]. split; assumption.
Qed.

Lemma spanEnd_is_absorbPair (editor : TextEditor) (pos : Z) (span : Span) :
  candidateSpan editor pos = Some span ->
  spanEnd span = absorbPair editor pos (prefixWindow editor pos).
Proof.
  unfold candidateSpan.
  destruct (detectStart editor pos (prefixWindow editor pos)) as [start off].
  destruct (start >=? 0); [|discriminate].
  intros H. injection H as <-. reflexivity.
Qed.

(** What a successful [startAbbreviationTracking] has done: it found a
    candidate span, resolved a context at the caret and called
    [startTracking] with them. *)
Lemma startAbbreviationTracking_call (editor : TextEditor) (pos : Z)
  (st st' : TrackerStore) (tracker : AbbreviationTracker) :
  startAbbreviationTracking editor pos st = (Ok (Some tracker), st') ->
  exists span o,
    candidateSpan editor pos = Some span
    /\ getActivationContext editor pos = Ok (Some o)
    /\ startTracking editor (spanStart span) (spanEnd span)
         {| StartTrackingParams.offset := spanOffset span;
            StartTrackingParams.options := Some o |} st = (tracker, st').
Proof.
  unfold startAbbreviationTracking, bind, liftResult, liftStore, ret.
  destruct (candidateSpan editor pos) as [span|]; [|discriminate].
  destruct (getActivationContext editor pos) as [[o|]|e]; try discriminate.
  destruct (SyntaxType_eqb (UserConfig.type o) Stylesheet
            && negb (reStylesheetWordBound (prefixWindow editor pos)));
    [discriminate|].
  destruct (startTracking editor (spanStart span) (spanEnd span) _ st)
    as [t st''] eqn:Hcall.
  intros H. injection H as <- <-.
  exists span, o. repeat split. exact Hcall.
Qed.

(** C7: when the boundary detector finds a start and the character before
    the caret is one of the opening characters [{], [[], [(] with its
    closing character right after the caret, the end of the span is
    [pos + 1]; when no such pair stands around the caret, the end of the
    span is the caret.  This is the end that [startTracking] is called
    with. *)
Theorem candidateSpan_end (editor : TextEditor) (pos : Z) (span : Span) :
  candidateSpan editor pos = Some span ->
  ((exists open close,
       In (open, close) [(ch "{", ch "}"); (ch "[", ch "]"); (ch "(", ch ")")]
       /\ charAt (content editor) (pos - 1) = Some open
       /\ charAt (content editor) pos = Some close) ->
   spanEnd span = pos + 1)
  /\ (~ (exists open close,
            In (open, close) [(ch "{", ch "}"); (ch "[", ch "]"); (ch "(", ch ")")]
            /\ charAt (content editor) (pos - 1) = Some open
            /\ charAt (content editor) pos = Some close) ->
      spanEnd span = pos)
  /\ (forall st st' tracker,
        startAbbreviationTracking editor pos st = (Ok (Some tracker), st') ->
        exists o,
          startTracking editor (spanStart span) (spanEnd span)
            {| StartTrackingParams.offset := spanOffset span;
               StartTrackingParams.options := Some o |} st = (tracker, st')).
Proof.
  intros Hspan. rewrite (spanEnd_is_absorbPair _ _ _ Hspan).
  destruct (absorbPair_window editor pos) as [Hpaired Hnot].
  split; [exact Hpaired|]. split; [exact Hnot|].
  intros st st' tracker Hstart.
  destruct (startAbbreviationTracking_call _ _ _ _ _ Hstart)
    as [span' [o [Hspan' [_ Hcall]]]].
  rewrite Hspan in Hspan'. injection Hspan' as <-.
  exists o. rewrite <- (spanEnd_is_absorbPair _ _ _ Hspan). exact Hcall.
Qed.

Lemma isJSXAbbrStart_class (c : char) :
  isJSXAbbrStart c = true <-> JSXStartChar c.
Proof.
  unfold isJSXAbbrStart, JSXStartChar, isLetter.
  rewrite !orb_true_iff, !andb_true_iff, !N.eqb_eq, !N.leb_le. tauto.
Qed.

(** The test of line 110 on a window. *)
Lemma jsx_window_test (prefix : jsstring) :
  (JS.length prefix =? 2)
  && strictEq (option_map (fun c => [c]) (charAt prefix 0)) (Some JSX_PREFIX)
  && testOn reJSXAbbrStart (charAt prefix 1) = true <->
  exists p c, prefix = [p; c] /\ JSX_PREFIX = [p] /\ JSXStartChar c.
Proof.
  split.
  - rewrite !andb_true_iff, Z.eqb_eq. intros [[Hlen Hprefix] Hstart].
    destruct prefix as [|p [|c [|z s]]]; unfold JS.length in Hlen;
      simpl in Hlen; try lia.
    exists p, c. simpl in Hprefix, Hstart.
    split; [reflexivity|]. split.
    + symmetry. apply eqb_eq. exact Hprefix.
    + apply isJSXAbbrStart_class. exact Hstart.
  - intros [p [c [-> [Hprefix Hclass]]]]. simpl. rewrite Hprefix.
    rewrite N.eqb_refl. simpl. apply isJSXAbbrStart_class. exact Hclass.
Qed.

(** C8: for a JSX document the boundary detector finds a start exactly when
    the two characters before the caret are the JSX prefix (one character)
    followed by a character of the class [[A-Za-z.#[(]]; the span then
    starts at [pos - 2] and its offset is the length of the prefix, and
    these are the start and the offset of every tracker that
    [startAbbreviationTracking] starts there. *)
Theorem candidateSpan_jsx (editor : TextEditor) (pos : Z) :
  isJSX (docSyntax editor) = true ->
  ((exists span, candidateSpan editor pos = Some span) <->
   (exists p c,
       charAt (content editor) (pos - 2) = Some p
       /\ charAt (content editor) (pos - 1) = Some c
       /\ [p; c] = JSX_PREFIX ++ [c]
       /\ JSXStartChar c))
  /\ (forall span,
        candidateSpan editor pos = Some span ->
        spanStart span = pos - 2 /\ spanOffset span = JS.length JSX_PREFIX)
  /\ (forall st st' tracker,
        startAbbreviationTracking editor pos st = (Ok (Some tracker), st') ->
        exists e o,
          startTracking editor (pos - 2) e
            {| StartTrackingParams.offset := JS.length JSX_PREFIX;
               StartTrackingParams.options := Some o |} st = (tracker, st')).
Proof.
  intros Hjsx.
  assert (Hshape : forall span,
             candidateSpan editor pos = Some span ->
             spanStart span = pos - 2 /\ spanOffset span = JS.length JSX_PREFIX).
  { unfold candidateSpan, detectStart. rewrite Hjsx. intros span.
    destruct ((JS.length (prefixWindow editor pos) =? 2)
              && strictEq (option_map (fun c => [c]) (charAt (prefixWindow editor pos) 0))
                   (Some JSX_PREFIX)
              && testOn reJSXAbbrStart (charAt (prefixWindow editor pos) 1));
      [|discriminate].
    destruct (pos - 2 >=? 0); [|discriminate].
    intros H. injection H as <-. split; reflexivity. }
  split; [|split; [exact Hshape|]].
  - unfold candidateSpan, detectStart. rewrite Hjsx.
    destruct ((JS.length (prefixWindow editor pos) =? 2)
              && strictEq (option_map (fun c => [c]) (charAt (prefixWindow editor pos) 0))
                   (Some JSX_PREFIX)
              && testOn reJSXAbbrStart (charAt (prefixWindow editor pos) 1)) eqn:Htest.
    + apply jsx_window_test in Htest.
      destruct Htest as [p [c [Hwin [Hprefix Hclass]]]].
      pose proof (proj1 (prefixWindow_two editor pos p c) Hwin) as [Hp Hc].
      pose proof (charAt_in_range _ _ _ Hp) as R.
      replace (pos - 2 >=? 0) with true by (symmetry; apply Z.geb_le; lia).
      split; [|intros _; eexists; reflexivity].
      intros _. exists p, c. rewrite Hprefix. repeat split; assumption.
    + simpl. split; [intros [span H]; discriminate|].
      intros [p [c [Hp [Hc [Hprefix Hclass]]]]]. exfalso.
      assert (Hok : (JS.length (prefixWindow editor pos) =? 2)
                && strictEq (option_map (fun c => [c]) (charAt (prefixWindow editor pos) 0))
                     (Some JSX_PREFIX)
                && testOn reJSXAbbrStart (charAt (prefixWindow editor pos) 1) = true).
      { apply jsx_window_test. exists p, c.
        split; [apply prefixWindow_two; split; assumption|].
        split; [|exact Hclass].
        destruct JSX_PREFIX as [|x [|y s]]; simpl in Hprefix; try discriminate.
        - injection Hprefix as ->. reflexivity.
        - destruct s; discriminate. }
      rewrite Hok in Htest. discriminate.
  - intros st st' tracker Hstart.
    destruct (startAbbreviationTracking_call _ _ _ _ _ Hstart)
      as [span [o [Hspan [_ Hcall]]]].
    destruct (Hshape span Hspan) as [Hs Ho].
    exists (spanEnd span), o. rewrite <- Hs, <- Ho. exact Hcall.
Qed.

End BoundaryFacts.

(** ** The resolver on concrete buffers *)

(** The value [r] of the property [color] under the top-level rule
    [a { color: r }]: the name of the context is [color]. *)
Lemma getCSSActivationContext_scope_witness :
  exists cfg,
    getCSSActivationContext
      (host := Fixture.syntaxHost (Ok Fixture.colorValue) Fixture.noHTML [] None)
      (Fixture.editorOf (lit "a { color: r }") "css" 12) 12 (lit "css")
      Fixture.colorValue = Some cfg
    /\ UserConfig.context cfg =
       Some {| AbbreviationContext.name := lit "color";
               AbbreviationContext.attributes := None |}.
Proof.
  eexists. split; [reflexivity|].
  destruct (getCSSActivationContext_scope
              (host := Fixture.syntaxHost (Ok Fixture.colorValue) Fixture.noHTML [] None)
              (Fixture.editorOf (lit "a { color: r }") "css" 12) 12 (lit "css")
              Fixture.colorValue _ eq_refl)
    as [current [name [Hcur [_ [Hctx [Hvalue _]]]]]].
  rewrite Hctx. injection Hcur as <-.
  rewrite (Hvalue [_] _ eq_refl eq_refl). reflexivity.
Defined.

(** A selector typed as the first character of a line inside the body of
    the rule [ul] resolves to the global marker, and a selector typed at the
    top level of the stylesheet to the section marker. *)
Lemma nested_selector_scope_is_global :
  activationName
    (getActivationContext
       (host := Fixture.syntaxHost (Ok Fixture.nestedSelector) Fixture.noHTML [] None)
       (Fixture.editorOf Fixture.nestedRule "css" 8) 8)
  = Some (lit "@@global")
  /\ activationName
       (getActivationContext
          (host := Fixture.syntaxHost (Ok Fixture.topLevelSelector) Fixture.noHTML [] None)
          (Fixture.editorOf (lit "a") "css" 1) 1)
     = Some (lit "@@section")
  /\ lit "@@global" <> lit "@@section".
Proof.
  split; [vm_compute; reflexivity|].
  split; [vm_compute; reflexivity|].
  vm_compute. discriminate.
Qed.

(** A [style] element whose [type] attribute has the value [scss]: the
    stylesheet branch runs with the syntax [scss]. *)
Lemma getActivationContext_embedded_style_witness :
  getActivationContext
    (host := Fixture.syntaxHost Fixture.noCSS (Ok Fixture.insideStyle)
               [Fixture.typeAttribute (Some (lit "scss"))] None)
    (Fixture.editorOf Fixture.styleElement "html" 20) 20
  = Ok (getCSSActivationContext
          (host := Fixture.syntaxHost Fixture.noCSS (Ok Fixture.insideStyle)
                     [Fixture.typeAttribute (Some (lit "scss"))] None)
          (Fixture.editorOf Fixture.styleElement "html" 20) 20 (lit "scss")
          {| CSSContext.ancestors :=
               [{| CSSMatch.name := lit "a"; CSSMatch.type := Selector;
                   CSSMatch.range := (15, 22) |}];
             CSSContext.current :=
               Some {| CSSMatch.name := lit "c"; CSSMatch.type := PropertyName;
                       CSSMatch.range := (19, 20) |};
             CSSContext.inline := false |}).
Proof.
  destruct (getActivationContext_embedded_style
              (host := Fixture.syntaxHost Fixture.noCSS (Ok Fixture.insideStyle)
                         [Fixture.typeAttribute (Some (lit "scss"))] None)
              (Fixture.editorOf Fixture.styleElement "html" 20) 20
              Fixture.insideStyle _ eq_refl eq_refl eq_refl eq_refl)
    as [syntax [Hcall [_ [_ [_ Htype]]]]].
  destruct (Htype [] _ [] (Fixture.typeAttribute (Some (lit "scss"))) []
              eq_refl eq_refl eq_refl) as [Hvalue _].
  - intros a [].
  - reflexivity.
  - rewrite Hcall. rewrite (Hvalue (lit "scss") eq_refl); [reflexivity|].
    vm_compute. discriminate.
Defined.

(** A [style] element whose [type] attribute is present with the empty
    value: the stylesheet branch runs with the syntax of the document,
    [html], and not with the value of the attribute. *)
Lemma empty_style_type_uses_document_syntax :
  attributeValue
    (Host := Fixture.syntaxHost Fixture.noCSS (Ok Fixture.insideStyle)
               [Fixture.typeAttribute (Some [])] None)
    (Fixture.typeAttribute (Some [])) = Some []
  /\ activationSyntax
       (getActivationContext
          (host := Fixture.syntaxHost Fixture.noCSS (Ok Fixture.insideStyle)
                     [Fixture.typeAttribute (Some [])] None)
          (Fixture.editorOf Fixture.styleElement "html" 20) 20)
     = Some (lit "html")
  /\ lit "html" <> [].
Proof.
  split; [reflexivity|].
  split; [vm_compute; reflexivity|].
  vm_compute. discriminate.
Qed.

(** A stylesheet whose structural query throws, after [a] was typed at
    offset 0: the resolver throws, and so does the change listener, which
    keeps [lastPos] at 0. *)
Lemma getActivationContext_propagates_witness :
  getActivationContext
    (host := Fixture.syntaxHost (Throw "unexpected token"%string) Fixture.noHTML [] None)
    (Fixture.editorOf (lit "a") "css" 1) 1
  = Throw "unexpected token"%string
  /\ onDidChange
       (host := Fixture.syntaxHost (Throw "unexpected token"%string)
                  Fixture.noHTML [] None)
       (Fixture.configOf (Some true))
       (Fixture.editorOf (lit "a") "css" 1)
       {| lastPos := Some 0; store := None |}
     = (Throw "unexpected token"%string, {| lastPos := Some 0; store := None |}).
Proof.
  split.
  - apply (proj1 (getActivationContext_propagates
                    (host := Fixture.syntaxHost (Throw "unexpected token"%string)
                               Fixture.noHTML [] None)
                    (Fixture.editorOf (lit "a") "css" 1) 1));
      reflexivity.
  - apply (proj2 (proj2 (proj2 (getActivationContext_propagates
                    (host := Fixture.syntaxHost (Throw "unexpected token"%string)
                               Fixture.noHTML [] None)
                    (Fixture.editorOf (lit "a") "css" 1) 1)))
             "unexpected token"%string (Fixture.configOf (Some true))
             {| lastPos := Some 0; store := None |} None).
    + left. split; reflexivity.
    + reflexivity.
    + reflexivity.
    + reflexivity.
    + exists {| spanStart := 0; spanEnd := 1; spanOffset := 0 |}. reflexivity.
Defined.

(** The exception of the stylesheet query is the result of the resolver,
    not "none", and it is the result of the change listener that asked. *)
Lemma query_failure_reaches_the_editor :
  getActivationContext
    (host := Fixture.syntaxHost (Throw "unexpected token"%string) Fixture.noHTML [] None)
    (Fixture.editorOf (lit "a") "css" 1) 1
  = Throw "unexpected token"%string
  /\ @Throw (option (UserConfig.t unit)) "unexpected token"%string <> Ok None
  /\ fst (onDidChange
            (host := Fixture.syntaxHost (Throw "unexpected token"%string)
                       Fixture.noHTML [] None)
            (Fixture.configOf (Some true))
            (Fixture.editorOf (lit "a") "css" 1)
            {| lastPos := Some 0; store := None |})
     = Throw "unexpected token"%string.
Proof.
  split; [vm_compute; reflexivity|].
  split; [discriminate|].
  vm_compute. reflexivity.
Qed.

(** ** Events and completion *)

Section TrackingFacts.

Context {OutputOptions TrackerStore : Type} {host : Host OutputOptions TrackerStore}.

(** C9: the selection listener never touches the registry (it starts and
    stops nothing); when completions are enabled it sets [lastPos] to the
    caret, and when they are disabled it changes nothing at all. *)
Theorem onDidChangeSelection_effect (nova : Nova) (ed : TextEditor)
  (s : Session TrackerStore) :
  store (onDidChangeSelection nova ed s) = store s
  /\ (isEnabled nova = true ->
      lastPos (onDidChangeSelection nova ed s) = Some (getCaret ed))
  /\ (isEnabled nova = false -> onDidChangeSelection nova ed s = s).
Proof.
  unfold onDidChangeSelection.
  destruct (isEnabled nova); simpl; repeat split; try reflexivity; discriminate.
Qed.

(** C10: when [extract] finds an abbreviation, [extractTracker] resolves
    the context at [start + 1]; if the resolution returns, then whatever
    it yields (a context or none) [startTracking] is called over
    [start, end) with the length of the prefix as offset and the outcome as
    options, and its tracker is returned; [extractTracker] returns none only
    when [extract] finds nothing; and if the resolution throws, nothing is
    started: the registry is left as it was and the exception is the
    outcome. *)
Theorem extractTracker_starts (editor : TextEditor) (ctx : CompletionContext)
  (st : TrackerStore) :
  let prefix := if isJSX (documentSyntax editor) then JSX_PREFIX else [] in
  let found :=
    extract (getContent editor) (position ctx) (documentSyntax editor) prefix in
  (forall abbr options,
      found = Some abbr ->
      getActivationContext editor (ExtractedAbbreviation.start abbr + 1) = Ok options ->
      extractTracker editor ctx st =
      (Ok (Some (fst (startTracking editor
                        (ExtractedAbbreviation.start abbr)
                        (ExtractedAbbreviation.end_ abbr)
                        {| StartTrackingParams.offset := JS.length prefix;
                           StartTrackingParams.options := options |} st))),
       snd (startTracking editor
              (ExtractedAbbreviation.start abbr)
              (ExtractedAbbreviation.end_ abbr)
              {| StartTrackingParams.offset := JS.length prefix;
                 StartTrackingParams.options := options |} st)))
  /\ (forall st', extractTracker editor ctx st = (Ok None, st') -> found = None)
  /\ (found = None -> extractTracker editor ctx st = (Ok None, st))
  /\ (forall abbr e,
        found = Some abbr ->
        getActivationContext editor (ExtractedAbbreviation.start abbr + 1) = Throw e ->
        extractTracker editor ctx st = (Throw e, st)).
Proof.
  intros prefix found. unfold extractTracker. fold prefix. fold found.
  split; [|split; [|split]].
  - intros abbr options Hfound Hctx. rewrite Hfound.
    unfold bind, liftResult, liftStore, ret. rewrite Hctx.
    destruct (startTracking _ _ _ _ st) as [t st'']. reflexivity.
  - intros st'. destruct found as [abbr|]; [|reflexivity].
    unfold bind, liftResult, liftStore, ret.
    destruct (getActivationContext _ _) as [options|e]; [|discriminate].
    destruct (startTracking _ _ _ _ st) as [t st'']. discriminate.
  - intros Hnone. rewrite Hnone. reflexivity.
  - intros abbr e Hfound Hctx. rewrite Hfound.
    unfold bind, liftResult. rewrite Hctx. reflexivity.
Qed.

End TrackingFacts.

(** ** The detector and the listeners on concrete buffers *)

(** The buffer [()] of a markup document with the caret between the two
    parentheses: the span is [0, 2). *)
Lemma candidateSpan_end_witness :
  candidateSpan
    (host := Fixture.syntaxHost Fixture.noCSS Fixture.noHTML [] None)
    (Fixture.editorOf (lit "()") "html" 1) 1
  = Some {| spanStart := 0; spanEnd := 2; spanOffset := 0 |}
  /\ spanEnd {| spanStart := 0; spanEnd := 2; spanOffset := 0 |} = 1 + 1.
Proof.
  split; [reflexivity|].
  apply (proj1 (candidateSpan_end
                  (host := Fixture.syntaxHost Fixture.noCSS Fixture.noHTML [] None)
                  (Fixture.editorOf (lit "()") "html" 1) 1
                  {| spanStart := 0; spanEnd := 2; spanOffset := 0 |} eq_refl)).
  exists (ch "("), (ch ")").
  split; [right; right; left; reflexivity|].
  split; reflexivity.
Defined.

(** The buffer [<d] of a JSX document with the caret at its end: a span is
    found. *)
Lemma candidateSpan_jsx_witness :
  exists span,
    candidateSpan
      (host := Fixture.syntaxHost Fixture.noCSS Fixture.noHTML [] None)
      (Fixture.editorOf (lit "<d") "jsx" 2) 2 = Some span.
Proof.
  apply (proj1 (candidateSpan_jsx
                  (host := Fixture.syntaxHost Fixture.noCSS Fixture.noHTML [] None)
                  (Fixture.editorOf (lit "<d") "jsx" 2) 2 eq_refl)).
  exists (ch "<"), (ch "d").
  split; [reflexivity|]. split; [reflexivity|]. split; [reflexivity|].
  right; left. vm_compute. split; discriminate.
Defined.

(** With completions disabled, a selection event at caret 3 leaves
    [lastPos] at 1. *)
Lemma disabled_selection_keeps_lastPos :
  isEnabled (Fixture.configOf (Some false)) = false
  /\ lastPos
       (onDidChangeSelection (Fixture.configOf (Some false))
          (Fixture.editorOf (lit "div") "html" 3)
          {| lastPos := Some 1; store := @None AbbreviationTracker |})
     = Some 1
  /\ Some 1 <> Some (getCaret (Fixture.editorOf (lit "div") "html" 3)).
Proof.
  split; [reflexivity|]. split; [reflexivity|]. discriminate.
Qed.

(** A completion in a stylesheet where the structural query finds no
    token: [extract] returns [div] over [0, 3), the context at offset 1 is
    none, and the tracker over [0, 3) is started without options. *)
Lemma extractTracker_starts_witness :
  extractTracker
    (host := Fixture.syntaxHost
               (Ok {| CSSContext.ancestors := []; CSSContext.current := None;
                      CSSContext.inline := false |})
               Fixture.noHTML []
               (Some {| ExtractedAbbreviation.abbreviation := lit "div";
                        ExtractedAbbreviation.start := 0;
                        ExtractedAbbreviation.end_ := 3 |}))
    (Fixture.editorOf (lit "div") "css" 3) {| position := 3 |} None
  = (Ok (Some {| range := (0, 3); forced := false; offset := 0;
                 abbreviation := Some (AbbreviationValid (lit "div")) |}),
     Some {| range := (0, 3); forced := false; offset := 0;
             abbreviation := Some (AbbreviationValid (lit "div")) |}).
Proof.
  apply (proj1 (extractTracker_starts
                  (host := Fixture.syntaxHost
                             (Ok {| CSSContext.ancestors := [];
                                    CSSContext.current := None;
                                    CSSContext.inline := false |})
                             Fixture.noHTML []
                             (Some {| ExtractedAbbreviation.abbreviation := lit "div";
                                      ExtractedAbbreviation.start := 0;
                                      ExtractedAbbreviation.end_ := 3 |}))
                  (Fixture.editorOf (lit "div") "css" 3) {| position := 3 |} None)
           {| ExtractedAbbreviation.abbreviation := lit "div";
              ExtractedAbbreviation.start := 0;
              ExtractedAbbreviation.end_ := 3 |} None);
    reflexivity.
Defined.

(** A completion in a stylesheet whose structural query throws: [extract]
    returns [div] over [0, 3), yet no tracker is returned and the registry
    stays empty; the outcome is the exception of the query. *)
Lemma throwing_query_starts_no_tracker :
  extract
    (Host := Fixture.syntaxHost (Throw "unexpected token"%string) Fixture.noHTML []
               (Some {| ExtractedAbbreviation.abbreviation := lit "div";
                        ExtractedAbbreviation.start := 0;
                        ExtractedAbbreviation.end_ := 3 |}))
    (lit "div") 3 (lit "css") []
  = Some {| ExtractedAbbreviation.abbreviation := lit "div";
            ExtractedAbbreviation.start := 0;
            ExtractedAbbreviation.end_ := 3 |}
  /\ extractTracker
       (host := Fixture.syntaxHost (Throw "unexpected token"%string) Fixture.noHTML []
                  (Some {| ExtractedAbbreviation.abbreviation := lit "div";
                           ExtractedAbbreviation.start := 0;
                           ExtractedAbbreviation.end_ := 3 |}))
       (Fixture.editorOf (lit "div") "css" 3) {| position := 3 |} None
     = (Throw "unexpected token"%string, None)
  /\ (forall tracker : AbbreviationTracker,
        @Throw (option AbbreviationTracker) "unexpected token"%string
        <> Ok (Some tracker)).
Proof.
  split; [reflexivity|].
  split; [vm_compute; reflexivity|].
  intros tracker. discriminate.
Qed.

(** ** The rest of the decision table *)

(** X2: steps 2 and 5 of the stop condition: a typed tracker without
    abbreviation is stopped; a typed tracker with a valid parse of one line
    without tab stop is kept, wherever the caret is. *)
Theorem shouldStopTracking_typed (tracker : AbbreviationTracker) (pos : Z) :
  forced tracker = false ->
  (abbreviation tracker = None -> shouldStopTracking tracker pos = true)
  /\ (forall text,
        abbreviation tracker = Some (AbbreviationValid text) ->
        (forall c, In c text -> c <> 10%N /\ c <> 13%N /\ c <> 65532%N) ->
        shouldStopTracking tracker pos = false).
Proof.
  intros Hforced. unfold shouldStopTracking. rewrite Hforced. split.
  - intros ->. reflexivity.
  - intros text -> Hclean. simpl abbr. unfold tabStop. rewrite includes_unit.
    assert (Hbreak : existsb isLineBreak text = false).
    { apply existsb_none. intros c Hin. destruct (Hclean c Hin) as [H1 [H2 _]].
      unfold isLineBreak. apply orb_false_iff.
      split; apply N.eqb_neq; assumption. }
    assert (Htab : existsb (N.eqb 65532) text = false).
    { apply existsb_none. intros c Hin. destruct (Hclean c Hin) as [_ [_ H]].
      apply N.eqb_neq. congruence. }
    rewrite Hbreak, Htab. reflexivity.
Qed.

(** A typed tracker without abbreviation. *)
Lemma shouldStopTracking_typed_witness :
  shouldStopTracking
    {| range := (4, 4); forced := false; offset := 0; abbreviation := None |} 4
  = true.
Proof.
  apply (proj1 (shouldStopTracking_typed
                  {| range := (4, 4); forced := false; offset := 0;
                     abbreviation := None |} 4 eq_refl)).
  reflexivity.
Defined.

(** X3: the loop of lines 175-181 ends within [end - start] turns, between the
    start and the end of the range, at the first character (read at
    [targetPos - start - 1]) that is not a closing character. *)
Theorem walkBack_bounds (text : jsstring) (start target : Z) :
  start <= target ->
  start <= walkBack (Z.to_nat (target - start)) text start target <= target
  /\ (walkBack (Z.to_nat (target - start)) text start target = start
      \/ pairsEndIncludes
           (charAt text
              (walkBack (Z.to_nat (target - start)) text start target - start - 1))
         = false).
Proof.
  intros Hle.
  assert (Hlow : forall fuel t, start <= t -> start <= walkBack fuel text start t).
  { induction fuel as [|fuel IH]; intros t Ht; simpl; [exact Ht|].
    destruct (t >? start) eqn:Hgt; [|exact Ht].
    destruct (pairsEndIncludes (charAt text (t - start - 1))); [|exact Ht].
    apply IH. apply Z.gtb_lt in Hgt. lia. }
  destruct (walkBack_exits text start (Z.to_nat (target - start)) target)
    as [Hup Hexit]; [lia|].
  pose proof (Hlow (Z.to_nat (target - start)) target Hle) as Hdown.
  split; [lia|].
  destruct Hexit as [H | H]; [left; lia | right; exact H].
Qed.

(** The walk over [a])}] from 7 down to 4. *)
Lemma walkBack_bounds_witness :
  3 <= walkBack (Z.to_nat (7 - 3)) (lit "a])}") 3 7 <= 7.
Proof.
  apply (walkBack_bounds (lit "a])}") 3 7). lia.
Defined.

Section DetectorFacts.

Context {OutputOptions TrackerStore : Type} {host : Host OutputOptions TrackerStore}.

(** X4: a document whose syntax is neither a stylesheet nor markup has no
    activation context, and no tracker is started in it: the registry is
    left as it was. *)
Theorem unsupported_syntax_none (editor : TextEditor) (pos : Z) (st : TrackerStore) :
  isCSS (docSyntax editor) = false ->
  isHTML (docSyntax editor) = false ->
  getActivationContext editor pos = Ok None
  /\ startAbbreviationTracking editor pos st = (Ok None, st).
Proof.
  intros Hcss Hhtml.
  assert (Hnone : getActivationContext editor pos = Ok None)
    by (unfold getActivationContext; rewrite Hcss, Hhtml; reflexivity).
  split; [exact Hnone|].
  unfold startAbbreviationTracking, bind, liftResult, ret. rewrite Hnone.
  destruct (candidateSpan editor pos); reflexivity.
Qed.

(** X5: the stricter test of lines 127-132: under a stylesheet context a window
    that does not match [reStylesheetWordBound] starts nothing. *)
Theorem stylesheet_boundary_check (editor : TextEditor) (pos : Z)
  (st : TrackerStore) (o : UserConfig.t OutputOptions) :
  getActivationContext editor pos = Ok (Some o) ->
  UserConfig.type o = Stylesheet ->
  reStylesheetWordBound (prefixWindow editor pos) = false ->
  startAbbreviationTracking editor pos st = (Ok None, st).
Proof.
  intros Hctx Hty Hre.
  unfold startAbbreviationTracking, bind, liftResult, ret.
  rewrite Hctx, Hty, Hre.
  destruct (candidateSpan editor pos); reflexivity.
Qed.

Lemma prefixWindow_one (editor : TextEditor) (pos : Z) (c : char) :
  pos <= JS.length (content editor) ->
  (prefixWindow editor pos = [c] <->
   pos = 1 /\ charAt (content editor) 0 = Some c).
Proof.
  intros Hpos. unfold prefixWindow. split.
  - intros Hwin.
    assert (Hlen : JS.length (substr editor (Z.max 0 (pos - 2), pos)) = 1)
      by (rewrite Hwin; reflexivity).
    rewrite substr_length in Hlen by lia.
    assert (H0 : charAt (substr editor (Z.max 0 (pos - 2), pos)) 0 = Some c)
      by (rewrite Hwin; reflexivity).
    rewrite substr_charAt in H0 by lia.
    assert (pos = 1) by lia. subst pos. split; [reflexivity | exact H0].
  - intros [-> Hc]. pose proof (charAt_in_range _ _ _ Hc) as R.
    assert (Hlen : JS.length (substr editor (Z.max 0 (1 - 2), 1)) = 1)
      by (rewrite substr_length by lia; lia).
    assert (H0 : charAt (substr editor (Z.max 0 (1 - 2), 1)) 0 = Some c)
      by (rewrite substr_charAt by lia; exact Hc).
    revert Hlen H0. unfold JS.length, charAt.
    destruct (substr editor (Z.max 0 (1 - 2), 1)) as [|x [|y s]]; simpl; intros; try lia.
    congruence.
Qed.

Lemma reWordBound_shape (prefix : jsstring) :
  reWordBound prefix = true <->
  (exists c, prefix = [c] /\ isAbbrStart c = true)
  \/ (exists b c, prefix = [b; c] /\ isWordBound b = true /\ isAbbrStart c = true).
Proof.
  split.
  - destruct prefix as [|x [|y [|z s]]]; simpl; try discriminate.
    + intros H. left. exists x. split; [reflexivity | exact H].
    + intros H. apply andb_true_iff in H. right. exists x, y.
      split; [reflexivity | exact H].
  - intros [[c [-> H]] | [b [c [-> [Hb Hc]]]]]; simpl; [exact H|].
    rewrite Hb, Hc. reflexivity.
Qed.

(** X6: outside JSX, with the caret inside the buffer, a start is found exactly
    when the character before the caret may open an abbreviation
    ([[a-zA-Z.#!@[(]]) and is the first of the buffer or follows a bound
    character (white space, [>], [;] or a quote); the span starts at
    [pos - 1] with offset 0. *)
Theorem candidateSpan_word_bound (editor : TextEditor) (pos : Z) :
  isJSX (docSyntax editor) = false ->
  pos <= JS.length (content editor) ->
  ((exists span, candidateSpan editor pos = Some span) <->
   (exists c,
       charAt (content editor) (pos - 1) = Some c
       /\ isAbbrStart c = true
       /\ (pos = 1
           \/ exists b, charAt (content editor) (pos - 2) = Some b
                        /\ isWordBound b = true)))
  /\ (forall span,
        candidateSpan editor pos = Some span ->
        spanStart span = pos - 1 /\ spanOffset span = 0).
Proof.
  intros Hjsx Hpos. unfold candidateSpan, detectStart. rewrite Hjsx.
  destruct (reWordBound (prefixWindow editor pos)) eqn:Hre.
  - apply reWordBound_shape in Hre.
    assert (Hchars : exists c,
               charAt (content editor) (pos - 1) = Some c
               /\ isAbbrStart c = true
               /\ (pos = 1
                   \/ exists b, charAt (content editor) (pos - 2) = Some b
                                /\ isWordBound b = true)).
    { destruct Hre as [[c [Hwin Hc]] | [b [c [Hwin [Hb Hc]]]]].
      - apply prefixWindow_one in Hwin; [|exact Hpos].
        destruct Hwin as [-> H0]. exists c. repeat split; auto.
      - apply prefixWindow_two in Hwin. destruct Hwin as [H2 H1].
        exists c. split; [exact H1|]. split; [exact Hc|].
        right. exists b. split; assumption. }
    destruct Hchars as [c [Hc Hrest]].
    pose proof (charAt_in_range _ _ _ Hc) as R.
    replace (pos - 1 >=? 0) with true by (symmetry; apply Z.geb_le; lia).
    split.
    + split; [intros _; exists c; split; assumption|].
      intros _. eexists. reflexivity.
    + intros span H. injection H as <-. split; reflexivity.
  - simpl. split.
    + split; [intros [span H]; discriminate|].
      intros [c [Hc [Hstart Hbound]]]. exfalso.
      assert (Hok : reWordBound (prefixWindow editor pos) = true).
      { apply reWordBound_shape. destruct Hbound as [-> | [b [Hb Hbb]]].
        - left. exists c. split; [|exact Hstart].
          apply prefixWindow_one; [exact Hpos|]. split; [reflexivity | exact Hc].
        - right. exists b, c. split; [|split; assumption].
          apply prefixWindow_two. split; assumption. }
      rewrite Hok in Hre. discriminate.
    + intros span H. discriminate.
Qed.

End DetectorFacts.

(** A plain-text document. *)
Lemma unsupported_syntax_none_witness :
  getActivationContext
    (host := Fixture.syntaxHost Fixture.noCSS Fixture.noHTML [] None)
    (Fixture.editorOf (lit "p") "txt" 1) 1
  = Ok None.
Proof.
  apply (proj1 (unsupported_syntax_none
                  (host := Fixture.syntaxHost Fixture.noCSS Fixture.noHTML [] None)
                  (Fixture.editorOf (lit "p") "txt" 1) 1 None eq_refl eq_refl)).
Defined.

(** A period typed in a property value: a markup start, not a stylesheet
    start. *)
Lemma stylesheet_boundary_check_witness :
  startAbbreviationTracking
    (host := Fixture.syntaxHost (Ok Fixture.colorValue) Fixture.noHTML [] None)
    (Fixture.editorOf (lit "a { color: . }") "css" 12) 12 None
  = (Ok None, None).
Proof.
  eapply (stylesheet_boundary_check
            (host := Fixture.syntaxHost (Ok Fixture.colorValue) Fixture.noHTML [] None)
            (Fixture.editorOf (lit "a { color: . }") "css" 12) 12 None);
    reflexivity.
Defined.

(** In the buffer [foo()] the parenthesis follows a letter, which is no
    bound character: no start is found with the caret behind it, while in
    [ ()] the span [1, 3) is found. *)
Lemma candidateSpan_word_bound_witness :
  candidateSpan
    (host := Fixture.syntaxHost Fixture.noCSS Fixture.noHTML [] None)
    (Fixture.editorOf (lit "foo()") "html" 4) 4 = None
  /\ exists span,
       candidateSpan
         (host := Fixture.syntaxHost Fixture.noCSS Fixture.noHTML [] None)
         (Fixture.editorOf (lit " ()") "html" 2) 2 = Some span.
Proof.
  split; [reflexivity|].
  apply (proj1 (candidateSpan_word_bound
                  (host := Fixture.syntaxHost Fixture.noCSS Fixture.noHTML [] None)
                  (Fixture.editorOf (lit " ()") "html" 2) 2 eq_refl
                  ltac:(vm_compute; discriminate))).
  exists (ch "("). split; [reflexivity|]. split; [reflexivity|].
  right. exists (ch " "). split; reflexivity.
Defined.

(** The scenario of section 8: in the markup buffer of [Fixture.divElement]
    the [p] typed between the tags (caret 16, last caret 15) starts a
    tracker over [15, 16), and the context resolved there names the parent
    [div] with its attribute [class] of value [x]. *)
Theorem typing_between_tags :
  snd (onDidChange
         (host := Fixture.syntaxHost Fixture.noCSS (Ok Fixture.insideDiv)
                    [Fixture.classAttribute] None)
         (Fixture.configOf (Some true))
         (Fixture.editorOf Fixture.divElement "html" 16)
         {| lastPos := Some 15; store := None |})
  = {| lastPos := Some 16;
       store := Some {| range := (15, 16); forced := false; offset := 0;
                        abbreviation := Some (AbbreviationValid (lit "p")) |} |}
  /\ getActivationContext
       (host := Fixture.syntaxHost Fixture.noCSS (Ok Fixture.insideDiv)
                  [Fixture.classAttribute] None)
       (Fixture.editorOf Fixture.divElement "html" 16) 16
     = Ok (Some {| UserConfig.syntax := lit "html";
                   UserConfig.type := Markup;
                   UserConfig.context :=
                     Some {| AbbreviationContext.name := lit "div";
                             AbbreviationContext.attributes :=
                               Some [(lit "class", lit "x")] |};
                   UserConfig.options := tt |}).
Proof.
  split; vm_compute; reflexivity.
Qed.

(** ** The change listener and the registry *)

Section ListenerFacts.

Context {OutputOptions TrackerStore : Type} {host : Host OutputOptions TrackerStore}.

(** Whatever [startAbbreviationTracking] does, it writes the registry only
    through the call of [startTracking] whose tracker it returns. *)
Lemma startAbbreviationTracking_cases (editor : TextEditor) (pos : Z)
  (st : TrackerStore) :
  (exists e, startAbbreviationTracking editor pos st = (Throw e, st))
  \/ startAbbreviationTracking editor pos st = (Ok None, st)
  \/ (exists span o,
        candidateSpan editor pos = Some span
        /\ getActivationContext editor pos = Ok (Some o)
        /\ (UserConfig.type o = Stylesheet ->
            reStylesheetWordBound (prefixWindow editor pos) = true)
        /\ startAbbreviationTracking editor pos st =
           (Ok (Some (fst (startTracking editor (spanStart span) (spanEnd span)
                             {| StartTrackingParams.offset := spanOffset span;
                                StartTrackingParams.options := Some o |} st))),
            snd (startTracking editor (spanStart span) (spanEnd span)
                   {| StartTrackingParams.offset := spanOffset span;
                      StartTrackingParams.options := Some o |} st))).
Proof.
  unfold startAbbreviationTracking, bind, liftResult, liftStore, ret.
  destruct (candidateSpan editor pos) as [span|]; [|right; left; reflexivity].
  destruct (getActivationContext editor pos) as [[o|]|e];
    [|right; left; reflexivity | left; exists e; reflexivity].
  destruct (SyntaxType_eqb (UserConfig.type o) Stylesheet
            && negb (reStylesheetWordBound (prefixWindow editor pos))) eqn:Hcheck;
    [right; left; reflexivity|].
  right; right. exists span, o.
  split; [reflexivity|]. split; [reflexivity|]. split.
  - intros Hty. rewrite Hty in Hcheck. simpl in Hcheck.
    destruct (reStylesheetWordBound (prefixWindow editor pos)); [reflexivity|discriminate].
  - destruct (startTracking editor (spanStart span) (spanEnd span) _ st); reflexivity.
Qed.

(** X7: [startAbbreviationTracking] starts a tracker exactly when a
    candidate span is found, a context resolves at the caret and, for a
    stylesheet context, the window passes the stylesheet word bound; in every
    other case (nothing found, no context, an exception of the query) the
    registry is left as it was. *)
Theorem startAbbreviationTracking_outcome (editor : TextEditor) (pos : Z)
  (st : TrackerStore) :
  ((exists tracker st',
       startAbbreviationTracking editor pos st = (Ok (Some tracker), st')) <->
   (exists span o,
       candidateSpan editor pos = Some span
       /\ getActivationContext editor pos = Ok (Some o)
       /\ (UserConfig.type o = Stylesheet ->
           reStylesheetWordBound (prefixWindow editor pos) = true)))
  /\ (forall r st',
        startAbbreviationTracking editor pos st = (r, st') ->
        (forall tracker, r <> Ok (Some tracker)) ->
        st' = st).
Proof.
  split.
  - split.
    + intros [tracker [st' Hstart]].
      destruct (startAbbreviationTracking_cases editor pos st)
        as [[e H] | [H | [span [o [Hspan [Hctx [Hcheck H]]]]]]];
        rewrite H in Hstart; try discriminate.
      exists span, o. repeat split; assumption.
    + intros [span [o [Hspan [Hctx Hcheck]]]].
      unfold startAbbreviationTracking, bind, liftResult, liftStore, ret.
      rewrite Hspan, Hctx.
      destruct (UserConfig.type o) eqn:Hty; simpl.
      * destruct (startTracking editor (spanStart span) (spanEnd span) _ st)
          as [t st']. exists t, st'. reflexivity.
      * rewrite (Hcheck eq_refl). simpl.
        destruct (startTracking editor (spanStart span) (spanEnd span) _ st)
          as [t st']. exists t, st'. reflexivity.
  - intros r st' Hstart Hnone.
    destruct (startAbbreviationTracking_cases editor pos st)
      as [[e H] | [H | [span [o [_ [_ [_ H]]]]]]];
      rewrite H in Hstart; injection Hstart as <- <-; try reflexivity.
    exfalso. eapply Hnone. reflexivity.
Qed.

(** X8: [extractTracker] writes the registry only by the call of
    [startTracking] whose tracker it returns: when it returns no tracker
    ([extract] found nothing) or throws (the structural query threw), the
    registry is left as it was. *)
Theorem extractTracker_frame (editor : TextEditor) (ctx : CompletionContext)
  (st st' : TrackerStore) (r : result (option AbbreviationTracker)) :
  extractTracker editor ctx st = (r, st') ->
  (forall tracker, r <> Ok (Some tracker)) ->
  st' = st.
Proof.
  unfold extractTracker, bind, liftResult, liftStore, ret.
  destruct (extract _ _ _ _) as [abbr|].
  - destruct (getActivationContext _ _) as [options|e].
    + destruct (startTracking _ _ _ _ st) as [t st''].
      intros H Hnone. injection H as <- <-. exfalso. eapply Hnone. reflexivity.
    + intros H _. injection H as _ <-. reflexivity.
  - intros H _. injection H as _ <-. reflexivity.
Qed.

(** X9: the change listener remembers the caret as [lastPos] whenever it
    completes, and keeps the old [lastPos] when it is left by an exception
    of a structural query. *)
Theorem onDidChange_lastPos (nova : Nova) (ed : TextEditor)
  (s : Session TrackerStore) :
  (fst (onDidChange nova ed s) = Ok tt ->
   lastPos (snd (onDidChange nova ed s)) = Some (getCaret ed))
  /\ (forall e,
        fst (onDidChange nova ed s) = Throw e ->
        lastPos (snd (onDidChange nova ed s)) = lastPos s)
  /\ (forall e,
        fst (onDidChange nova ed s) = Throw e ->
        getActivationContext ed (getCaret ed) = Throw e
        /\ store (snd (onDidChange nova ed s)) = snd (handleChange ed (store s))).
Proof.
  unfold onDidChange.
  destruct (handleChange ed (store s)) as [tracker st1]. simpl snd.
  destruct (negb (isSome tracker)
            && match lastPos s with Some l => l =? getCaret ed - 1 | None => false end
            && allowTracking nova ed (getCaret ed)).
  - destruct (startAbbreviationTracking_cases ed (getCaret ed) st1)
      as [[e H] | [H | [span [o [_ [_ [_ H]]]]]]]; rewrite H; simpl.
    + split; [discriminate|]. split; [reflexivity|].
      intros e' He'. injection He' as <-. split; [|reflexivity].
      revert H. unfold startAbbreviationTracking, bind, liftResult, liftStore, ret.
      destruct (candidateSpan ed (getCaret ed)); [|discriminate].
      destruct (getActivationContext ed (getCaret ed)) as [[o|]|e2].
      * destruct (SyntaxType_eqb (UserConfig.type o) Stylesheet
                  && negb (reStylesheetWordBound (prefixWindow ed (getCaret ed))));
          [discriminate|].
        destruct (startTracking _ _ _ _ st1); discriminate.
      * discriminate.
      * intros H. injection H as <-. reflexivity.
    + split; [reflexivity|]. split; intros e; discriminate.
    + split; [reflexivity|]. split; intros e; discriminate.
  - simpl. split; [reflexivity|]. split; intros e; discriminate.
Qed.

(** X10: when the registry already tracks an abbreviation after
    [handleChange], the change listener runs no boundary detection and no
    structural query: it completes, stops the tracker if
    [shouldStopTracking] says so and keeps it otherwise; a forced tracker is
    always kept. *)
Theorem onDidChange_existing_tracker (nova : Nova) (ed : TextEditor)
  (s : Session TrackerStore) (tracker : AbbreviationTracker) (st1 : TrackerStore) :
  handleChange ed (store s) = (Some tracker, st1) ->
  onDidChange nova ed s =
  (Ok tt,
   {| lastPos := Some (getCaret ed);
      store := if shouldStopTracking tracker (getCaret ed)
               then stopTracking ed st1 else st1 |})
  /\ (forced tracker = true ->
      onDidChange nova ed s = (Ok tt, {| lastPos := Some (getCaret ed); store := st1 |})).
Proof.
  intros Hchange.
  assert (Hrun : onDidChange nova ed s =
                 (Ok tt,
                  {| lastPos := Some (getCaret ed);
                     store := if shouldStopTracking tracker (getCaret ed)
                              then stopTracking ed st1 else st1 |}))
    by (unfold onDidChange; rewrite Hchange; reflexivity).
  split; [exact Hrun|].
  intros Hforced. rewrite Hrun.
  unfold shouldStopTracking. rewrite Hforced. reflexivity.
Qed.

(** X11: with no tracker after [handleChange], the change listener starts
    nothing and only remembers the caret when the edit is not a single
    forward insertion (the remembered caret is missing or is not
    [pos - 1]), when completions are disabled, or when the syntax is neither
    supported nor JSX. *)
Theorem onDidChange_no_start (nova : Nova) (ed : TextEditor)
  (s : Session TrackerStore) (st1 : TrackerStore) :
  handleChange ed (store s) = (None, st1) ->
  lastPos s <> Some (getCaret ed - 1)
  \/ isEnabled nova = false
  \/ (isSupported (docSyntax ed) = false /\ isJSX (docSyntax ed) = false) ->
  onDidChange nova ed s = (Ok tt, {| lastPos := Some (getCaret ed); store := st1 |}).
Proof.
  intros Hchange Hwhy. unfold onDidChange. rewrite Hchange. simpl negb.
  assert (Hoff :
            match lastPos s with Some l => l =? getCaret ed - 1 | None => false end
            && allowTracking nova ed (getCaret ed) = false).
  { destruct Hwhy as [Hlast | [Hoff | [Hsup Hjsx]]].
    - destruct (lastPos s) as [l|]; [|reflexivity].
      destruct (l =? getCaret ed - 1) eqn:E; [|reflexivity].
      apply Z.eqb_eq in E. subst l. contradiction.
    - unfold allowTracking. rewrite Hoff. apply andb_false_r.
    - unfold allowTracking. rewrite Hsup, Hjsx.
      destruct (isEnabled nova); apply andb_false_r. }
  simpl andb. rewrite Hoff. reflexivity.
Qed.

End ListenerFacts.

(** ** Word bounds, spans and the caret *)

Lemma isStylesheetStart_no_pair (c : char) :
  isStylesheetStart c = true ->
  isAbbrStart c = true /\ pairsLookup pairs c = None.
Proof.
  unfold isStylesheetStart, isAbbrStart, isLetter, pairs. simpl.
  rewrite !orb_true_iff, !andb_true_iff, !N.eqb_eq, !N.leb_le.
  intros H. split; [tauto|].
  destruct (N.eqb_spec c 123) as [-> | _]; [exfalso; lia|].
  destruct (N.eqb_spec c 91) as [-> | _]; [exfalso; lia|].
  destruct (N.eqb_spec c 40) as [-> | _]; [exfalso; lia|].
  reflexivity.
Qed.

Lemma isStylesheetBound_word (b : char) :
  isStylesheetBound b = true -> isWordBound b = true.
Proof.
  unfold isStylesheetBound, isWordBound.
  rewrite !orb_true_iff. tauto.
Qed.

Lemma walkBack_between (text : jsstring) (start : Z) (fuel : nat) :
  forall target, start <= target ->
    start <= walkBack fuel text start target <= target.
Proof.
  induction fuel as [|fuel IH]; intros target Hle; simpl; [lia|].
  destruct (target >? start) eqn:Hgt; [|lia].
  destruct (pairsEndIncludes (charAt text (target - start - 1))); [|lia].
  apply Z.gtb_lt in Hgt. specialize (IH (target - 1)). lia.
Qed.

Section SpanFacts.

Context {OutputOptions TrackerStore : Type} {host : Host OutputOptions TrackerStore}.

Lemma absorbPair_no_opener (editor : TextEditor) (pos : Z) (prefix : jsstring)
  (c : char) :
  charAt prefix (JS.length prefix - 1) = Some c ->
  pairsLookup pairs c = None ->
  absorbPair editor pos prefix = pos.
Proof.
  intros Hlast Hpair. unfold absorbPair. rewrite Hlast, Hpair. reflexivity.
Qed.

(** X12: the stylesheet word bound is a restriction of the markup word
    bound: every window it accepts is accepted by [reWordBound]; and such a
    window ends in a letter, [!] or [@], never in an opening bracket, so a
    span found on it is not widened: its end is the caret. *)
Theorem stylesheet_window_not_widened (editor : TextEditor) (pos : Z)
  (prefix : jsstring) :
  reStylesheetWordBound prefix = true ->
  reWordBound prefix = true
  /\ absorbPair editor pos prefix = pos
  /\ (forall span,
        prefix = prefixWindow editor pos ->
        candidateSpan editor pos = Some span ->
        spanEnd span = pos).
Proof.
  intros Hre.
  assert (Hshape : reWordBound prefix = true /\ absorbPair editor pos prefix = pos).
  { unfold reStylesheetWordBound in Hre. unfold reWordBound.
    destruct prefix as [|x [|y [|z s]]]; try discriminate.
    - destruct (isStylesheetStart_no_pair x Hre) as [Hstart Hpair].
      split; [exact Hstart|].
      apply (absorbPair_no_opener editor pos [x] x); [reflexivity | exact Hpair].
    - apply andb_true_iff in Hre. destruct Hre as [Hb Hc].
      destruct (isStylesheetStart_no_pair y Hc) as [Hstart Hpair].
      split; [rewrite (isStylesheetBound_word x Hb), Hstart; reflexivity|].
      apply (absorbPair_no_opener editor pos [x; y] y); [reflexivity | exact Hpair]. }
  destruct Hshape as [Hword Hend].
  split; [exact Hword|]. split; [exact Hend|].
  intros span Hwin Hspan.
  rewrite (spanEnd_is_absorbPair _ _ _ Hspan), <- Hwin. exact Hend.
Qed.

(** X13: a span found with the caret inside the buffer lies inside the
    buffer and is not empty: [0 <= start < end <= length], the end is the
    caret or the caret plus one, the offset is 0 or 1, and the text after
    the offset starts at the character just typed ([start + offset] is
    [pos - 1]). *)
Theorem candidateSpan_invariant (editor : TextEditor) (pos : Z) (span : Span) :
  pos <= JS.length (content editor) ->
  candidateSpan editor pos = Some span ->
  0 <= spanStart span
  /\ spanStart span + spanOffset span = pos - 1
  /\ 0 <= spanOffset span <= 1
  /\ pos <= spanEnd span <= pos + 1
  /\ spanStart span < spanEnd span
  /\ spanEnd span <= JS.length (content editor).
Proof.
  intros Hpos Hspan.
  assert (Hend : pos <= spanEnd span <= pos + 1
                 /\ spanEnd span <= JS.length (content editor)).
  { rewrite (spanEnd_is_absorbPair _ _ _ Hspan). unfold absorbPair.
    destruct (charAt (prefixWindow editor pos) (JS.length (prefixWindow editor pos) - 1));
      [|lia].
    destruct (pairsLookup pairs c) as [close|]; [|lia].
    destruct (eqb (substr editor (pos, pos + 1)) [close]) eqn:Hafter; [|lia].
    apply substr_after_caret in Hafter.
    pose proof (charAt_in_range _ _ _ Hafter). lia. }
  revert Hspan. unfold candidateSpan, detectStart.
  destruct (isJSX (docSyntax editor)).
  - destruct ((JS.length (prefixWindow editor pos) =? 2)
              && strictEq (option_map (fun c => [c]) (charAt (prefixWindow editor pos) 0))
                   (Some JSX_PREFIX)
              && testOn reJSXAbbrStart (charAt (prefixWindow editor pos) 1)) eqn:Htest;
      [|discriminate].
    apply jsx_window_test in Htest. destruct Htest as [p [c [_ [Hprefix _]]]].
    destruct (pos - 2 >=? 0) eqn:Hge; [|discriminate].
    apply Z.geb_le in Hge.
    intros H. injection H as <-. simpl in *. rewrite Hprefix.
    unfold JS.length in *. simpl. lia.
  - destruct (reWordBound (prefixWindow editor pos)); [|discriminate].
    destruct (pos - 1 >=? 0) eqn:Hge; [|discriminate].
    apply Z.geb_le in Hge.
    intros H. injection H as <-. simpl in *. lia.
Qed.

End SpanFacts.

(** X14: for a typed tracker with an error parse (error not at 0, text of
    one line without tab stop) over a range with [start <= end], a caret
    outside the range never stops tracking: the walk of lines 173-181 ends
    between the start and the end of the range. *)
Theorem shouldStopTracking_caret_outside (tracker : AbbreviationTracker)
  (text : jsstring) (errorPos pos : Z) :
  forced tracker = false ->
  abbreviation tracker = Some (AbbreviationError text errorPos) ->
  (forall c, In c text -> c <> 10%N /\ c <> 13%N /\ c <> 65532%N) ->
  fst (range tracker) <= snd (range tracker) ->
  errorPos <> 0 ->
  pos < fst (range tracker) \/ snd (range tracker) < pos ->
  shouldStopTracking tracker pos = false.
Proof.
  intros Hforced Habbr Hclean Hrange Herr Hout.
  rewrite (error_branch_unfolded _ _ _ _ Hforced Habbr Hclean).
  pose proof (walkBack_between text (fst (range tracker))
                (Z.to_nat (snd (range tracker) - fst (range tracker)))
                (snd (range tracker)) Hrange) as Hwalk.
  rewrite !orb_false_iff. repeat split; apply Z.eqb_neq; lia.
Qed.

(** ** Activation inside a stylesheet *)

Lemma isLineBreak_space (c : char) : isLineBreak c = true -> isSpace c = true.
Proof.
  unfold isLineBreak. rewrite orb_true_iff, !N.eqb_eq.
  intros [-> | ->]; reflexivity.
Qed.

Lemma trimStart_spaces (pre rest : jsstring) (c : char) :
  (forall x, In x pre -> isSpace x = true) ->
  isSpace c = false ->
  trimStart (pre ++ c :: rest) = c :: rest.
Proof.
  intros Hpre Hc. induction pre as [|x pre IH]; simpl.
  - rewrite Hc. reflexivity.
  - rewrite (Hpre x) by (left; reflexivity).
    apply IH. intros y Hy. apply Hpre. right. exact Hy.
Qed.

Lemma trimStart_decomp (s : jsstring) :
  exists pre,
    s = pre ++ trimStart s
    /\ (forall x, In x pre -> isSpace x = true)
    /\ (trimStart s = [] \/ exists c rest, trimStart s = c :: rest /\ isSpace c = false).
Proof.
  induction s as [|x s IH]; simpl.
  - exists []. split; [reflexivity|]. split; [intros y []|left; reflexivity].
  - destruct (isSpace x) eqn:Hx.
    + destruct IH as [pre [Heq [Hpre Hhead]]].
      exists (x :: pre). split; [simpl; rewrite <- Heq; reflexivity|].
      split; [|exact Hhead].
      intros y [<- | Hy]; [exact Hx | apply Hpre; exact Hy].
    + exists []. split; [reflexivity|]. split; [intros y []|].
      right. exists x, s. split; [reflexivity | exact Hx].
Qed.

(** [trim] leaves one character exactly for a text that holds one
    character that is not white space, with white space around it. *)
Lemma trim_one (s : jsstring) :
  JS.length (trim s) = 1 <->
  exists pre c post,
    s = pre ++ c :: post
    /\ (forall x, In x pre -> isSpace x = true)
    /\ (forall x, In x post -> isSpace x = true)
    /\ isSpace c = false.
Proof.
  unfold trim, JS.length. split.
  - intros Hlen. rewrite length_rev in Hlen.
    destruct (trimStart_decomp s) as [pre [Heq [Hpre _]]].
    destruct (trimStart_decomp (rev (trimStart s))) as [post [Heq' [Hpost Hhead]]].
    destruct Hhead as [Hnil | [c [rest [Hcons Hc]]]].
    + rewrite Hnil in Hlen. simpl in Hlen. lia.
    + rewrite Hcons in Hlen, Heq'.
      destruct rest; [|simpl in Hlen; lia].
      exists pre, c, (rev post). split; [|split; [exact Hpre|split; [|exact Hc]]].
      * rewrite Heq at 1. f_equal.
        rewrite <- (rev_involutive (trimStart s)), Heq', rev_app_distr.
        reflexivity.
      * intros x Hx. apply Hpost. apply in_rev. exact Hx.
  - intros [pre [c [post [-> [Hpre [Hpost Hc]]]]]].
    rewrite (trimStart_spaces pre post c Hpre Hc).
    simpl rev.
    rewrite (trimStart_spaces (rev post) [] c); [reflexivity| |exact Hc].
    intros x Hx. apply Hpost. apply in_rev. exact Hx.
Qed.

Lemma splitLines_nonempty (s : jsstring) : splitLines s <> [].
Proof.
  induction s as [|c s IH]; simpl; [discriminate|].
  destruct (isLineBreak c); [discriminate|].
  destruct (splitLines s); discriminate.
Qed.

(** The first piece of [split(/[\n\r]/)] is the text before the first line
    break. *)
Lemma splitLines_first (line tail : jsstring) :
  (forall x, In x line -> isLineBreak x = false) ->
  tail = [] \/ (exists b rest, tail = b :: rest /\ isLineBreak b = true) ->
  hd [] (splitLines (line ++ tail)) = line.
Proof.
  intros Hline Htail. induction line as [|x line IH]; simpl.
  - destruct Htail as [-> | [b [rest [-> Hb]]]]; simpl; [reflexivity|].
    rewrite Hb. reflexivity.
  - rewrite (Hline x) by (left; reflexivity).
    assert (IH' : hd [] (splitLines (line ++ tail)) = line)
      by (apply IH; intros y Hy; apply Hline; right; exact Hy).
    destruct (splitLines (line ++ tail)) as [|piece rest] eqn:E.
    + exfalso. exact (splitLines_nonempty _ E).
    + simpl in *. rewrite IH'. reflexivity.
Qed.

Lemma splitLines_first_decomp (s : jsstring) :
  exists tail,
    s = hd [] (splitLines s) ++ tail
    /\ (forall x, In x (hd [] (splitLines s)) -> isLineBreak x = false)
    /\ (tail = [] \/ exists b rest, tail = b :: rest /\ isLineBreak b = true).
Proof.
  induction s as [|c s IH]; simpl.
  - exists []. split; [reflexivity|]. split; [intros x []|left; reflexivity].
  - destruct (isLineBreak c) eqn:Hc.
    + exists (c :: s). split; [reflexivity|]. split; [intros x []|].
      right. exists c, s. split; [reflexivity | exact Hc].
    + destruct IH as [tail [Heq [Hline Htail]]].
      destruct (splitLines s) as [|piece rest] eqn:E.
      * exfalso. exact (splitLines_nonempty _ E).
      * simpl in *. exists tail. split; [rewrite <- Heq; reflexivity|].
        split; [|exact Htail].
        intros x [<- | Hx]; [exact Hc | apply Hline; exact Hx].
Qed.

Lemma first_line_alone (text : jsstring) :
  JS.length (trim (hd [] (splitLines text))) = 1 <-> aloneOnLine text.
Proof.
  unfold aloneOnLine. split.
  - intros Hlen. apply trim_one in Hlen.
    destruct Hlen as [pre [c [post [Hline [Hpre [Hpost Hc]]]]]].
    destruct (splitLines_first_decomp text) as [tail [Heq [Hbreaks Htail]]].
    exists pre, c, post, tail.
    split; [rewrite Heq at 1; rewrite Hline, <- app_assoc; reflexivity|].
    split; [|split; [|split; [exact Hc | exact Htail]]].
    + intros x Hx. split; [apply Hpre; exact Hx|].
      apply Hbreaks. rewrite Hline. apply in_or_app. left. exact Hx.
    + intros x Hx. split; [apply Hpost; exact Hx|].
      apply Hbreaks. rewrite Hline. apply in_or_app. right. right. exact Hx.
  - intros [pre [c [post [tail [-> [Hpre [Hpost [Hc Htail]]]]]]]].
    replace (pre ++ c :: post ++ tail) with ((pre ++ c :: post) ++ tail)
      by (rewrite <- app_assoc; reflexivity).
    rewrite splitLines_first; [|
      |exact Htail].
    + apply trim_one. exists pre, c, post.
      split; [reflexivity|].
      split; [intros x Hx; apply Hpre; exact Hx|].
      split; [intros x Hx; apply Hpost; exact Hx | exact Hc].
    + intros x Hx. apply in_app_or in Hx. destruct Hx as [Hx | [<- | Hx]].
      * apply Hpre. exact Hx.
      * destruct (isLineBreak c) eqn:E; [|reflexivity].
        apply isLineBreak_space in E. congruence.
      * apply Hpost. exact Hx.
Qed.

Section StylesheetFacts.

Context {OutputOptions TrackerStore : Type} {host : Host OutputOptions TrackerStore}.

Lemma isTypingBeforeSelector_shape (editor : TextEditor) (pos : Z)
  (ctx : CSSContext.t) :
  isTypingBeforeSelector editor pos ctx = true <->
  exists current,
    CSSContext.current ctx = Some current
    /\ CSSMatch.type current = Selector
    /\ fst (CSSMatch.range current) = pos - 1
    /\ aloneOnLine (substr editor (CSSMatch.range current)).
Proof.
  unfold isTypingBeforeSelector. split.
  - destruct (CSSContext.current ctx) as [current|]; [|discriminate].
    destruct (CSSMatch.type current) eqn:Hty; simpl; try discriminate.
    destruct (fst (CSSMatch.range current) =? pos - 1) eqn:Hstart; [|discriminate].
    intros Hlen. apply Z.eqb_eq in Hstart, Hlen.
    exists current. repeat split; try assumption.
    apply first_line_alone. exact Hlen.
  - intros [current [-> [Hty [Hstart Halone]]]].
    rewrite Hty, Hstart, Z.eqb_refl. simpl.
    apply Z.eqb_eq. apply first_line_alone. exact Halone.
Qed.

(** X15: the stylesheet branch allows activation exactly when there is a
    token under the caret and it is a property name, a property value, or a
    selector that starts at [pos - 1] and whose typed character stands alone
    on its line; a block end, a selector that starts elsewhere or one that
    shares its line with other text never activates.  The context it
    returns is stylesheet-typed and carries the syntax it was given and the
    output options for the inline flag of the query. *)
Theorem getCSSActivationContext_allowed (editor : TextEditor) (pos : Z)
  (syntax : jsstring) (ctx : CSSContext.t) :
  ((exists cfg, getCSSActivationContext editor pos syntax ctx = Some cfg) <->
   (exists current,
       CSSContext.current ctx = Some current
       /\ (CSSMatch.type current = PropertyName
           \/ CSSMatch.type current = PropertyValue
           \/ (CSSMatch.type current = Selector
               /\ fst (CSSMatch.range current) = pos - 1
               /\ aloneOnLine (substr editor (CSSMatch.range current))))))
  /\ (forall cfg,
        getCSSActivationContext editor pos syntax ctx = Some cfg ->
        UserConfig.syntax cfg = syntax
        /\ UserConfig.type cfg = Stylesheet
        /\ UserConfig.options cfg =
           getOutputOptions editor pos (Some (CSSContext.inline ctx))).
Proof.
  split.
  - unfold getCSSActivationContext. split.
    + intros [cfg Hcfg].
      destruct (CSSContext.current ctx) as [current|] eqn:Hcur; [|discriminate].
      exists current. split; [reflexivity|].
      destruct (CSSMatch.type current) eqn:Hty; simpl in Hcfg.
      * right; right.
        destruct (isTypingBeforeSelector editor pos ctx) eqn:Htyping; [|discriminate].
        apply isTypingBeforeSelector_shape in Htyping.
        destruct Htyping as [current' [Hcur' [_ [Hstart Halone]]]].
        rewrite Hcur in Hcur'. injection Hcur' as <-.
        repeat split; assumption.
      * left. reflexivity.
      * right; left. reflexivity.
      * exfalso.
        destruct (isTypingBeforeSelector editor pos ctx) eqn:Htyping; [|discriminate].
        apply isTypingBeforeSelector_shape in Htyping.
        destruct Htyping as [current' [Hcur' [Hsel _]]].
        rewrite Hcur in Hcur'. injection Hcur' as <-. congruence.
    + intros [current [Hcur Hwhy]]. rewrite Hcur.
      destruct Hwhy as [Hty | [Hty | [Hty [Hstart Halone]]]].
      * rewrite Hty. simpl. eexists. reflexivity.
      * rewrite Hty. simpl. eexists. reflexivity.
      * assert (Htyping : isTypingBeforeSelector editor pos ctx = true).
        { apply isTypingBeforeSelector_shape. exists current.
          repeat split; assumption. }
        rewrite Htyping, orb_true_r. eexists. reflexivity.
  - intros cfg. unfold getCSSActivationContext.
    destruct (CSSContext.current ctx) as [current|]; [|discriminate].
    destruct (TokenType_eqb (CSSMatch.type current) PropertyName
              || TokenType_eqb (CSSMatch.type current) PropertyValue
              || isTypingBeforeSelector editor pos ctx); [|discriminate].
    intros H. injection H as <-. repeat split.
Qed.

End StylesheetFacts.

(** ** The markup context *)

Lemma setProperty_keys (obj : list (jsstring * jsstring)) (key v : jsstring) :
  (In key (map fst obj) -> map fst (setProperty obj key v) = map fst obj)
  /\ (~ In key (map fst obj) ->
      map fst (setProperty obj key v) = map fst obj ++ [key]).
Proof.
  induction obj as [|[k w] obj IH]; simpl.
  - split; [intros [] | reflexivity].
  - destruct (eqb k key) eqn:E.
    + apply eqb_eq in E. subst k. split; [reflexivity|].
      intros Hnot. exfalso. apply Hnot. left. reflexivity.
    + assert (Hne : k <> key) by (intros ->; rewrite eqb_refl in E; discriminate).
      destruct IH as [IHin IHout]. simpl. split.
      * intros [Heq | Hin]; [contradiction|]. rewrite (IHin Hin). reflexivity.
      * intros Hnot. rewrite IHout; [reflexivity|]. tauto.
Qed.

Lemma setProperty_NoDup (obj : list (jsstring * jsstring)) (key v : jsstring) :
  NoDup (map fst obj) -> NoDup (map fst (setProperty obj key v)).
Proof.
  intros Hnodup. destruct (setProperty_keys obj key v) as [Hin Hout].
  destruct (in_dec (list_eq_dec N.eq_dec) key (map fst obj)) as [H | H].
  - rewrite (Hin H). exact Hnodup.
  - rewrite (Hout H). apply NoDup_app; [exact Hnodup | repeat constructor; intros [] |].
    intros k Hk [<- | []]. contradiction.
Qed.

(** Reading the object after an assignment. *)
Lemma setProperty_In (obj : list (jsstring * jsstring)) (key v k w : jsstring) :
  NoDup (map fst obj) ->
  In (k, w) (setProperty obj key v) <->
  (k = key /\ w = v) \/ (k <> key /\ In (k, w) obj).
Proof.
  induction obj as [|[k0 w0] obj IH]; simpl; intros Hnodup.
  - split.
    + intros [H | []]. injection H as <- <-. left. split; reflexivity.
    + intros [[-> ->] | [_ []]]. left. reflexivity.
  - inversion Hnodup as [|? ? Hfresh Hrest]; subst.
    destruct (eqb k0 key) eqn:E.
    + apply eqb_eq in E. subst k0. simpl. split.
      * intros [H | H]; [injection H as <- <-; left; split; reflexivity|].
        right. split; [|right; exact H].
        intros ->. apply Hfresh. apply (in_map fst) in H. exact H.
      * intros [[-> ->] | [Hne [H | H]]]; [left; reflexivity| |right; exact H].
        injection H as <- _. contradiction.
    + assert (Hne : k0 <> key) by (intros ->; rewrite eqb_refl in E; discriminate).
      simpl. rewrite (IH Hrest). split.
      * intros [H | [H | [Hk H]]].
        -- injection H as <- <-. right. split; [exact Hne | left; reflexivity].
        -- left. exact H.
        -- right. split; [exact Hk | right; exact H].
      * intros [H | [Hk [H | H]]].
        -- right. left. exact H.
        -- left. exact H.
        -- right. right. split; assumption.
Qed.

Section MarkupFacts.

Context {OutputOptions TrackerStore : Type} {host : Host OutputOptions TrackerStore}.

(** The object that the loop of lines 284-287 builds from a list of
    attributes: one property per attribute name, with the value of the last
    attribute of that name. *)
Lemma attributes_object (attrs : list AttributeToken.t) :
  let obj :=
    fold_left
      (fun obj attr =>
         setProperty obj (AttributeToken.name attr) (orElse (attributeValue attr) []))
      attrs [] in
  NoDup (map fst obj)
  /\ forall k w,
       In (k, w) obj <->
       exists earlier attr later,
         attrs = earlier ++ attr :: later
         /\ AttributeToken.name attr = k
         /\ (forall a, In a later -> AttributeToken.name a <> k)
         /\ w = orElse (attributeValue attr) [].
Proof.
  induction attrs as [|a attrs IH] using rev_ind; simpl.
  - split; [constructor|]. intros k w. split; [intros []|].
    intros [earlier [attr [later [H _]]]]. destruct earlier; discriminate.
  - rewrite fold_left_app. simpl. destruct IH as [Hnodup Hin].
    split; [apply setProperty_NoDup; exact Hnodup|].
    intros k w. rewrite (setProperty_In _ _ _ _ _ Hnodup), Hin. split.
    + intros [[-> ->] | [Hne [earlier [attr [later [-> [Hname [Hlater ->]]]]]]]].
      * exists attrs, a, []. repeat split; try reflexivity. intros b [].
      * exists earlier, attr, (later ++ [a]).
        split; [rewrite <- app_assoc; reflexivity|].
        split; [exact Hname|]. split; [|reflexivity].
        intros b Hb. apply in_app_or in Hb. destruct Hb as [Hb | [<- | []]].
        -- apply Hlater. exact Hb.
        -- congruence.
    + intros [earlier [attr [later [Heq [Hname [Hlater ->]]]]]].
      destruct later as [|b later] using rev_ind.
      * apply app_inj_tail in Heq. destruct Heq as [-> ->].
        left. split; [symmetry; exact Hname | reflexivity].
      * clear IHlater.
        replace (earlier ++ attr :: later ++ [b])
          with ((earlier ++ attr :: later) ++ [b]) in Heq
          by (rewrite <- app_assoc; reflexivity).
        apply app_inj_tail in Heq. destruct Heq as [-> ->].
        right. split.
        -- intros ->. apply (Hlater b); [|reflexivity].
           apply in_or_app. right. left. reflexivity.
        -- exists earlier, attr, later. repeat split; try assumption.
           intros c Hc. apply Hlater. apply in_or_app. left. exact Hc.
Qed.

(** X16: without ancestor there is no markup context; with ancestors the
    context names the nearest (last) one and holds one property per
    attribute name of its tag: the value of the last attribute of that
    name, the empty string when that attribute has no value or an empty
    one.  (No attribute is named [__proto__], the one name that an
    assignment to a JavaScript object does not store.) *)
Theorem getMarkupAbbreviationContext_attributes (code : jsstring)
  (ctx : HTMLContext.t) :
  (HTMLContext.ancestors ctx = [] -> getMarkupAbbreviationContext code ctx = None)
  /\ (forall before parent,
        HTMLContext.ancestors ctx = before ++ [parent] ->
        (forall a,
            In a (attributes (tagSource code parent) (ContextTag.name parent)) ->
            AttributeToken.name a <> lit "__proto__") ->
        exists obj,
          getMarkupAbbreviationContext code ctx =
          Some {| AbbreviationContext.name := ContextTag.name parent;
                  AbbreviationContext.attributes := Some obj |}
          /\ NoDup (map fst obj)
          /\ forall k w,
               In (k, w) obj <->
               exists earlier attr later,
                 attributes (tagSource code parent) (ContextTag.name parent) =
                   earlier ++ attr :: later
                 /\ AttributeToken.name attr = k
                 /\ (forall a, In a later -> AttributeToken.name a <> k)
                 /\ w = orElse (attributeValue attr) []).
Proof.
  unfold getMarkupAbbreviationContext. split.
  - intros ->. reflexivity.
  - intros before parent Hanc _. rewrite Hanc, last_snoc.
    eexists. split; [reflexivity|].
    exact (attributes_object
             (attributes (tagSource code parent) (ContextTag.name parent))).
Qed.


End MarkupFacts.

(** ** The pattern of a URL token *)

Lemma lazyBody_bounds (s : jsstring) (k : nat) :
  lazyBody s = Some k -> (1 <= k)%nat /\ (k < List.length s)%nat.
Proof.
  revert k. induction s as [|c s IH]; simpl; intros k; [discriminate|].
  destruct (isDotChar c); [|discriminate].
  destruct (closesURL s) eqn:Hclose.
  - intros H. injection H as <-. split; [lia|].
    destruct s; [discriminate | simpl; lia].
  - destruct (lazyBody s) as [k'|]; [|discriminate].
    intros H. injection H as <-.
    destruct (IH k' eq_refl). simpl. lia.
Qed.

Lemma startsWith_length (s sub : jsstring) :
  startsWith s sub = true -> (List.length sub <= List.length s)%nat.
Proof.
  revert s. induction sub as [|y sub IH]; intros [|x s]; simpl;
    try discriminate; try lia.
  intros H. apply andb_true_iff in H. destruct H as [_ H].
  specialize (IH s H). lia.
Qed.

Lemma startsWith_app (sub s : jsstring) : startsWith (sub ++ s) sub = true.
Proof.
  induction sub as [|y sub IH]; simpl.
  - destruct s; reflexivity.
  - rewrite N.eqb_refl. exact IH.
Qed.

Lemma matchURLHere_bounds (s : jsstring) (g1 k : nat) :
  matchURLHere s = Some (g1, k) ->
  (g1 = 4 \/ g1 = 5)%nat /\ (1 <= k)%nat /\ (g1 + k < List.length s)%nat.
Proof.
  unfold matchURLHere.
  destruct (startsWith s (lit "url(")) eqn:Hstart; [|discriminate].
  apply startsWith_length in Hstart. simpl in Hstart.
  assert (Hskip : List.length (skipn 4 s) = (List.length s - 4)%nat)
    by apply length_skipn.
  assert (Hunq : forall g k,
             option_map (fun k => (4%nat, k)) (lazyBody (skipn 4 s)) = Some (g, k) ->
             (g = 4 \/ g = 5)%nat /\ (1 <= k)%nat /\ (g + k < List.length s)%nat).
  { intros g k0. destruct (lazyBody (skipn 4 s)) as [k'|] eqn:E; [|discriminate].
    intros H. injection H as <- <-.
    destruct (lazyBody_bounds _ _ E). lia. }
  destruct (skipn 4 s) as [|q after'] eqn:Hafter; [apply Hunq|].
  destruct (isQuoteChar q); [|apply Hunq].
  destruct (lazyBody after') as [k'|] eqn:E; [|apply Hunq].
  intros H. injection H as <- <-.
  destruct (lazyBody_bounds _ _ E). simpl in Hskip. lia.
Qed.

Lemma matchURL_bounds (s : jsstring) :
  forall i g1 k,
    matchURL s = Some (i, g1, k) ->
    (g1 = 4 \/ g1 = 5)%nat /\ (1 <= k)%nat /\ (i + g1 + k < List.length s)%nat.
Proof.
  induction s as [|c s IH]; intros i g1 k.
  - cbn. discriminate.
  - simpl matchURL. destruct (matchURLHere (c :: s)) as [[g g']|] eqn:E.
    + intros H. injection H as <- <- <-.
      destruct (matchURLHere_bounds _ _ _ E) as [? [? ?]]. lia.
    + destruct (matchURL s) as [[[i' g] g']|]; [|discriminate].
      intros H. injection H as <- <- <-.
      destruct (IH i' g g' eq_refl) as [? [? ?]]. simpl. lia.
Qed.

(** The lazy group on a body without quote and closing parenthesis: it
    takes the whole body. *)
Lemma lazyBody_clean (body tail : jsstring) :
  body <> [] ->
  (forall x, In x body ->
     isDotChar x = true /\ isQuoteChar x = false /\ x <> ch ")") ->
  closesURL tail = true ->
  lazyBody (body ++ tail) = Some (List.length body).
Proof.
  intros Hne Hclean Htail. induction body as [|c body IH]; [contradiction|].
  simpl. destruct (Hclean c) as [Hdot _]; [left; reflexivity|]. rewrite Hdot.
  destruct body as [|c' body'].
  - simpl. rewrite Htail. reflexivity.
  - assert (Hopen : closesURL ((c' :: body') ++ tail) = false).
    { destruct (Hclean c') as [_ [Hq Hp]]; [right; left; reflexivity|].
      simpl. rewrite Hq. simpl. apply N.eqb_neq. exact Hp. }
    rewrite Hopen. rewrite IH; [reflexivity | discriminate |].
    intros x Hx. apply Hclean. right. exact Hx.
Qed.

(** The pattern on a token of the form [url(body)], with a quote or none
    on either side of the body. *)
Lemma matchURL_token (open body close post : jsstring) :
  open = [] \/ (exists q, open = [q] /\ isQuoteChar q = true) ->
  close = [] \/ (exists q, close = [q] /\ isQuoteChar q = true) ->
  body <> [] ->
  (forall x, In x body ->
     isDotChar x = true /\ isQuoteChar x = false /\ x <> ch ")") ->
  matchURL (lit "url(" ++ open ++ body ++ close ++ [ch ")"] ++ post) =
  Some (O, (4 + List.length open)%nat, List.length body).
Proof.
  intros Hopen Hclose Hne Hclean.
  assert (Htail : closesURL (close ++ [ch ")"] ++ post) = true).
  { destruct Hclose as [-> | [q [-> Hq]]]; simpl; [reflexivity|].
    rewrite Hq. reflexivity. }
  assert (Hhere : matchURLHere (lit "url(" ++ open ++ body ++ close ++ [ch ")"] ++ post)
                  = Some ((4 + List.length open)%nat, List.length body)).
  { unfold matchURLHere.
    change (lit "url(" ++ open ++ body ++ close ++ [ch ")"] ++ post)
      with (ch "u" :: ch "r" :: ch "l" :: ch "(" ::
            open ++ body ++ close ++ [ch ")"] ++ post).
    change (skipn 4 (ch "u" :: ch "r" :: ch "l" :: ch "(" ::
                     open ++ body ++ close ++ [ch ")"] ++ post))
      with (open ++ body ++ close ++ [ch ")"] ++ post).
    replace (startsWith
               (ch "u" :: ch "r" :: ch "l" :: ch "(" ::
                open ++ body ++ close ++ [ch ")"] ++ post) (lit "url("))
      with true
      by (symmetry;
          apply (startsWith_app (lit "url(") (open ++ body ++ close ++ [ch ")"] ++ post))).
    destruct Hopen as [-> | [q [-> Hq]]].
    - change ([] ++ body ++ close ++ [ch ")"] ++ post)
        with (body ++ close ++ [ch ")"] ++ post).
      rewrite (lazyBody_clean body _ Hne Hclean Htail).
      destruct body as [|c body']; [contradiction|].
      destruct (Hclean c) as [_ [Hq _]]; [left; reflexivity|].
      change ((c :: body') ++ close ++ [ch ")"] ++ post)
        with (c :: body' ++ close ++ [ch ")"] ++ post).
      cbv beta iota. rewrite Hq. reflexivity.
    - change ([q] ++ body ++ close ++ [ch ")"] ++ post)
        with (q :: body ++ close ++ [ch ")"] ++ post).
      cbv beta iota. rewrite Hq.
      rewrite (lazyBody_clean body _ Hne Hclean Htail). reflexivity. }
  destruct body as [|c body']; [contradiction|].
  destruct open as [|o open']; simpl in *; rewrite Hhere; reflexivity.
Qed.

Section DataURLFacts.

Context {OutputOptions TrackerStore : Type} {host : Host OutputOptions TrackerStore}
        {dataHost : DataHost}.

(** What [getURLRange] returns, token by token. *)
Lemma getURLRange_shape (view : TextEditor) (valueTokens : list NovaRange.t)
  (pos : Z) :
  exists r,
    getURLRange view valueTokens pos = Ok r
    /\ forall range,
         r = Some range ->
         exists v,
           In v valueTokens
           /\ containsIndex v pos = true
           /\ (NovaRange.start range = NovaRange.start v + 4
               \/ NovaRange.start range = NovaRange.start v + 5)
           /\ NovaRange.start range < NovaRange.end_ range
           /\ NovaRange.end_ range <
              NovaRange.start v + JS.length (getTextInRange view v).
Proof.
  induction valueTokens as [|v rest IH]; simpl.
  - exists None. split; [reflexivity | discriminate].
  - destruct (containsIndex v pos) eqn:Hin.
    + destruct (matchURL (getTextInRange view v)) as [[[i g1] k]|] eqn:Hm.
      * destruct (matchURL_bounds _ _ _ _ Hm) as [Hg [Hk Hlen]].
        unfold newRange.
        replace (NovaRange.start v + Z.of_nat g1 + Z.of_nat k
                 <? NovaRange.start v + Z.of_nat g1) with false
          by (symmetry; apply Z.ltb_ge; lia).
        simpl. eexists. split; [reflexivity|].
        intros range H. injection H as <-. exists v. simpl.
        unfold JS.length. repeat split; try lia; [left; reflexivity | exact Hin].
      * destruct IH as [r [Hr Hrange]]. exists r. split; [exact Hr|].
        intros range Hsome. destruct (Hrange range Hsome) as [w [Hw Hrest]].
        exists w. split; [right; exact Hw | exact Hrest].
    + destruct IH as [r [Hr Hrange]]. exists r. split; [exact Hr|].
      intros range Hsome. destruct (Hrange range Hsome) as [w [Hw Hrest]].
      exists w. split; [right; exact Hw | exact Hrest].
Qed.

(** X18: [getURLRange] never throws, and a range it returns belongs to a
    value token that holds the caret: it starts 4 or 5 characters behind the
    start of that token (the length of the first group, wherever in the
    token the pattern matched), is not empty and ends before the end of the
    token text. *)
Theorem getURLRange_inside (view : TextEditor) (valueTokens : list NovaRange.t)
  (pos : Z) :
  exists r,
    getURLRange view valueTokens pos = Ok r
    /\ forall range,
         r = Some range ->
         exists v,
           In v valueTokens
           /\ containsIndex v pos = true
           /\ (NovaRange.start range = NovaRange.start v + 4
               \/ NovaRange.start range = NovaRange.start v + 5)
           /\ NovaRange.start range < NovaRange.end_ range
           /\ NovaRange.end_ range <
              NovaRange.start v + JS.length (getTextInRange view v).
Proof.
  exact (getURLRange_shape view valueTokens pos).
Qed.

(** X19: on the first value token that holds the caret, when its text
    begins with [url(body)], the body between two quotes, after one quote,
    before one quote or bare, and the body is not empty and free of quotes,
    closing parentheses and line terminators, [getURLRange] returns the
    range of the body. *)
Theorem getURLRange_body (view : TextEditor) (skipped rest : list NovaRange.t)
  (v : NovaRange.t) (pos : Z) (open body close post : jsstring) :
  (forall w, In w skipped -> containsIndex w pos = false) ->
  containsIndex v pos = true ->
  getTextInRange view v = lit "url(" ++ open ++ body ++ close ++ [ch ")"] ++ post ->
  open = [] \/ (exists q, open = [q] /\ isQuoteChar q = true) ->
  close = [] \/ (exists q, close = [q] /\ isQuoteChar q = true) ->
  body <> [] ->
  (forall x, In x body ->
     isDotChar x = true /\ isQuoteChar x = false /\ x <> ch ")") ->
  getURLRange view (skipped ++ v :: rest) pos =
  Ok (Some {| NovaRange.start := NovaRange.start v + 4 + JS.length open;
              NovaRange.end_ :=
                NovaRange.start v + 4 + JS.length open + JS.length body |})
  /\ slice (getTextInRange view v) (4 + JS.length open)
       (4 + JS.length open + JS.length body) = body.
Proof.
  intros Hskipped Hin Htext Hopen Hclose Hne Hclean. split.
  - induction skipped as [|w skipped IH]; simpl.
    + rewrite Hin, Htext, (matchURL_token open body close post Hopen Hclose Hne Hclean).
      unfold newRange, JS.length.
      replace (NovaRange.start v + Z.of_nat (4 + List.length open)
               + Z.of_nat (List.length body)
               <? NovaRange.start v + Z.of_nat (4 + List.length open)) with false
        by (symmetry; apply Z.ltb_ge; lia).
      simpl. do 3 f_equal; lia.
    + rewrite (Hskipped w) by (left; reflexivity).
      apply IH. intros u Hu. apply Hskipped. right. exact Hu.
  - rewrite Htext. unfold slice, clampIndex, JS.length.
    rewrite !length_app. simpl List.length.
    set (lo := List.length open). set (lb := List.length body).
    replace (4 + Z.of_nat lo <? 0) with false by (symmetry; apply Z.ltb_ge; lia).
    replace (4 + Z.of_nat lo + Z.of_nat lb <? 0) with false
      by (symmetry; apply Z.ltb_ge; lia).
    rewrite !Z.min_l by lia.
    replace (Z.to_nat (4 + Z.of_nat lo + Z.of_nat lb - (4 + Z.of_nat lo))) with lb by lia.
    replace (Z.to_nat (4 + Z.of_nat lo)) with (4 + lo)%nat by lia.
    change (lit "url(" ++ open ++ body ++ close ++ [ch ")"] ++ post)
      with (lit "url(" ++ (open ++ body ++ close ++ [ch ")"] ++ post)).
    replace (4 + lo)%nat with (List.length (lit "url(") + lo)%nat by reflexivity.
    rewrite skipn_app.
    rewrite skipn_all2 by (simpl; lia).
    replace (List.length (lit "url(") + lo - List.length (lit "url("))%nat with lo by lia.
    simpl app at 1. unfold lo. rewrite skipn_app, skipn_all, Nat.sub_diag.
    simpl skipn. simpl app at 1. unfold lb. rewrite firstn_app, firstn_all, Nat.sub_diag.
    simpl. apply app_nil_r.
Qed.

End DataURLFacts.

(** ** Conversion to a data URL *)

Lemma find_first {A : Type} (f : A -> bool) (l : list A) (x : A) :
  find f l = Some x ->
  exists before after,
    l = before ++ x :: after
    /\ f x = true
    /\ forall y, In y before -> f y = false.
Proof.
  induction l as [|a l IH]; simpl; [discriminate|].
  destruct (f a) eqn:Ha.
  - intros H. injection H as <-. exists [], l.
    split; [reflexivity|]. split; [exact Ha | intros y []].
  - intros H. destruct (IH H) as [before [after [-> [Hx Hbefore]]]].
    exists (a :: before), after. split; [reflexivity|]. split; [exact Hx|].
    intros y [<- | Hy]; [exact Ha | apply Hbefore; exact Hy].
Qed.

Section ConversionFacts.

Context {OutputOptions TrackerStore : Type} {host : Host OutputOptions TrackerStore}
        {dataHost : DataHost}.

Lemma embedFile_cases (range : NovaRange.t) (src : jsstring)
  (absFile : option jsstring) :
  (truthyString absFile = false
   /\ embedFile range src absFile =
      [ShowWarning (lit "Unable to locate file for " ++ src ++ lit ".")])
  \/ (truthyString absFile = true /\ embedFile range src absFile = [])
  \/ (exists file data mime,
        absFile = Some file
        /\ file <> []
        /\ readFile file = Some data
        /\ Z.of_nat (List.length data) <= 20480
        /\ mimeOf (splitext file) = Some mime
        /\ embedFile range src absFile =
           [Replace range (lit "data:" ++ mime ++ lit ";base64," ++ b64encode data)]).
Proof.
  unfold embedFile.
  destruct absFile as [[|c f]|]; [left; split; reflexivity | | left; split; reflexivity].
  destruct (readFile (c :: f)) as [data|] eqn:Hread; [|right; left; split; reflexivity].
  destruct ((maxSize =? 0) || (Z.of_nat (List.length data) <=? maxSize)) eqn:Hsize;
    [|right; left; split; reflexivity].
  destruct (mimeOf (splitext (c :: f))) as [mime|] eqn:Hmime;
    [|right; left; split; reflexivity].
  right; right. exists (c :: f), data, mime.
  split; [reflexivity|]. split; [discriminate|]. split; [exact Hread|].
  split; [|split; [exact Hmime | reflexivity]].
  unfold maxSize in Hsize. simpl in Hsize. apply Z.leb_le in Hsize. exact Hsize.
Qed.

(** The effects of [convertToDataURL], branch by branch. *)
Lemma convertToDataURL_shape (editor : TextEditor) (range : NovaRange.t) :
  (List.length (convertToDataURL editor range) <= 1)%nat
  /\ forall r text,
       In (Replace r text) (convertToDataURL editor range) ->
       r = range
       /\ convertToDataURL editor range = [Replace range text]
       /\ exists file data mime,
            file <> []
            /\ (file = getTextInRange editor range
                \/ exists path,
                     documentPath editor = Some path
                     /\ locateFile path (getTextInRange editor range) = Some file)
            /\ readFile file = Some data
            /\ Z.of_nat (List.length data) <= 20480
            /\ mimeOf (splitext file) = Some mime
            /\ text = lit "data:" ++ mime ++ lit ";base64," ++ b64encode data.
Proof.
  pose (P := fun effects : list Effect =>
          (List.length effects <= 1)%nat
          /\ forall r text,
               In (Replace r text) effects ->
               r = range
               /\ effects = [Replace range text]
               /\ exists file data mime,
                    file <> []
                    /\ (file = getTextInRange editor range
                        \/ exists path,
                             documentPath editor = Some path
                             /\ locateFile path (getTextInRange editor range) = Some file)
                    /\ readFile file = Some data
                    /\ Z.of_nat (List.length data) <= 20480
                    /\ mimeOf (splitext file) = Some mime
                    /\ text = lit "data:" ++ mime ++ lit ";base64," ++ b64encode data).
  change (P (convertToDataURL editor range)).
  assert (Hembed : forall absFile,
             absFile = Some (getTextInRange editor range)
             \/ (exists path,
                   documentPath editor = Some path
                   /\ locateFile path (getTextInRange editor range) = absFile)
             \/ absFile = None ->
             P (embedFile range (getTextInRange editor range) absFile)).
  { intros absFile Hfrom. unfold P.
    destruct (embedFile_cases range (getTextInRange editor range) absFile)
      as [[_ H] | [[_ H] | [file [data [mime [Habs [Hne [Hread [Hsize [Hmime H]]]]]]]]]];
      rewrite H; simpl.
    - split; [lia|]. intros r text [Hin | []]. discriminate.
    - split; [lia|]. intros r text [].
    - split; [lia|]. intros r text [Hin | []]. injection Hin as <- <-.
      split; [reflexivity|]. split; [reflexivity|].
      exists file, data, mime. split; [exact Hne|]. split.
      + destruct Hfrom as [Hsrc | [[path [Hpath Hloc]] | Hnone]].
        * left. rewrite Hsrc in Habs. injection Habs as <-. reflexivity.
        * right. exists path. split; [exact Hpath | rewrite Hloc; exact Habs].
        * rewrite Hnone in Habs. discriminate.
      + repeat split; assumption. }
  assert (Hwarn : forall message, P [ShowWarning message]).
  { intros message. unfold P. simpl. split; [lia|].
    intros r text [Hin | []]. discriminate. }
  clearbody P. unfold convertToDataURL.
  destruct (isURL (getTextInRange editor range)); [apply Hembed; left; reflexivity|].
  destruct (documentPath editor) as [[|c path]|] eqn:Hpath;
    [apply Hembed; right; right; reflexivity
    | | apply Hembed; right; right; reflexivity].
  assert (Hlocated :
            P (embedFile range (getTextInRange editor range)
                 (locateFile (c :: path) (getTextInRange editor range)))).
  { apply Hembed. right; left. exists (c :: path). split; reflexivity. }
  destruct (truthyString (locateFile (c :: path) (getTextInRange editor range))
            && negb (maxSize =? 0)); [|exact Hlocated].
  destruct (locateFile (c :: path) (getTextInRange editor range)) as [file|];
    simpl option_map; [|exact Hlocated].
  destruct (fileSize file) as [size|]; [|exact Hlocated].
  destruct (size >? maxSize); [apply Hwarn | exact Hlocated].
Qed.

(** X20: [convertToDataURL] has at most one effect.  When it replaces a
    text, it replaces the text of the range it was given, by
    [data:<type>;base64,<encoded file>], where the file was located (the
    source itself when it is a URL), read, holds no more than 20480 bytes,
    and the type is what [mimeTypes] gives for its extension. *)
Theorem convertToDataURL_replace (editor : TextEditor) (range : NovaRange.t) :
  (List.length (convertToDataURL editor range) <= 1)%nat
  /\ forall r text,
       In (Replace r text) (convertToDataURL editor range) ->
       r = range
       /\ convertToDataURL editor range = [Replace range text]
       /\ exists file data mime,
            file <> []
            /\ (file = getTextInRange editor range
                \/ exists path,
                     documentPath editor = Some path
                     /\ locateFile path (getTextInRange editor range) = Some file)
            /\ readFile file = Some data
            /\ Z.of_nat (List.length data) <= 20480
            /\ mimeOf (splitext file) = Some mime
            /\ text = lit "data:" ++ mime ++ lit ";base64," ++ b64encode data.
Proof.
  exact (convertToDataURL_shape editor range).
Qed.

(** X21: for a source that is not a URL, [convertToDataURL] only shows a
    warning and reads nothing when the document has no path or the file
    cannot be located ("Unable to locate file for ..."), and when the
    located file is reported larger than 20480 bytes ("Size of ... is too
    large ..."); a URL source is never measured before it is read. *)
Theorem convertToDataURL_warnings (editor : TextEditor) (range : NovaRange.t) :
  let src := getTextInRange editor range in
  (isURL src = false ->
   truthyString (documentPath editor) = false ->
   convertToDataURL editor range =
   [ShowWarning (lit "Unable to locate file for " ++ src ++ lit ".")])
  /\ (forall path,
        isURL src = false ->
        documentPath editor = Some path -> path <> [] ->
        truthyString (locateFile path src) = false ->
        convertToDataURL editor range =
        [ShowWarning (lit "Unable to locate file for " ++ src ++ lit ".")])
  /\ (forall path file size,
        isURL src = false ->
        documentPath editor = Some path -> path <> [] ->
        locateFile path src = Some file -> file <> [] ->
        fileSize file = Some size -> 20480 < size ->
        convertToDataURL editor range =
        [ShowWarning
           (lit "Size of " ++ src
            ++ lit " is too large for data:URL. Check Emmet plugin preferences to increase this limit.")])
  /\ (isURL src = true ->
      convertToDataURL editor range = embedFile range src (Some src)).
Proof.
  intros src. unfold convertToDataURL. fold src.
  split; [|split; [|split]].
  - intros Hurl Hpath. rewrite Hurl.
    destruct (documentPath editor) as [[|c path]|]; try discriminate; reflexivity.
  - intros path Hurl Hpath Hne Hloc. rewrite Hurl, Hpath.
    destruct path as [|c path]; [contradiction|].
    rewrite Hloc. simpl andb. cbv iota.
    unfold embedFile.
    destruct (locateFile (c :: path) src) as [[|d f]|]; try discriminate; reflexivity.
  - intros path file size Hurl Hpath Hne Hloc Hfile Hsize Hlarge.
    rewrite Hurl, Hpath.
    destruct path as [|c path]; [contradiction|].
    rewrite Hloc. destruct file as [|d f]; [contradiction|].
    simpl. rewrite Hsize.
    replace (size >? maxSize) with true
      by (symmetry; apply Z.gtb_lt; unfold maxSize; lia).
    reflexivity.
  - intros Hurl. rewrite Hurl. reflexivity.
Qed.

(** X22: [toggleURL] leaves a source that starts with [data:] alone, and
    every text that it inserts starts with [data:]: applied again to a range
    that holds the inserted text it does nothing. *)
Theorem toggleURL_once (editor : TextEditor) (range : NovaRange.t) :
  (startsWith (getTextInRange editor range) (lit "data:") = true ->
   toggleURL editor range = [])
  /\ forall r text,
       In (Replace r text) (toggleURL editor range) ->
       startsWith (getTextInRange editor range) (lit "data:") = false
       /\ startsWith text (lit "data:") = true
       /\ forall editor' range',
            getTextInRange editor' range' = text ->
            toggleURL editor' range' = [].
Proof.
  unfold toggleURL. split.
  - intros ->. reflexivity.
  - intros r text.
    destruct (startsWith (getTextInRange editor range) (lit "data:")) eqn:Hdata;
      [intros []|].
    intros Hin.
    destruct (convertToDataURL_shape editor range) as [_ Hreplace].
    destruct (Hreplace r text Hin)
      as [_ [_ [file [data [mime [_ [_ [_ [_ [_ ->]]]]]]]]]].
    assert (Hstarts : startsWith (lit "data:" ++ mime ++ lit ";base64," ++ b64encode data)
                        (lit "data:") = true) by apply startsWith_app.
    split; [reflexivity|]. split; [exact Hstarts|].
    intros editor' range' ->. rewrite Hstarts. reflexivity.
Qed.

(** X23: [convertHTML] has an effect only on an open tag whose name is
    [img] in lower case, through the first attribute named [src], which has
    a value: the effect is that of [toggleURL] on the offsets of the value,
    without its two quotes when the value is quoted. *)
Theorem convertHTML_img_src (editor : TextEditor) (pos : Z) (effects : list Effect) :
  convertHTML editor pos = Ok effects ->
  effects <> [] ->
  exists tag before attr after v,
    getOpenTag (getContent editor) pos = Some tag
    /\ toLowerCase (OpenTag.name tag) = lit "img"
    /\ OpenTag.attributes tag = Some (before ++ attr :: after)
    /\ (forall a, In a before ->
          AttributeToken.name (AttributeSpan.token a) <> lit "src")
    /\ AttributeToken.name (AttributeSpan.token attr) = lit "src"
    /\ AttributeToken.value (AttributeSpan.token attr) = Some v
    /\ effects =
       toggleURL editor
         (if isQuoted v
          then {| NovaRange.start := AttributeSpan.valueStart attr + 1;
                  NovaRange.end_ := AttributeSpan.valueEnd attr - 1 |}
          else {| NovaRange.start := AttributeSpan.valueStart attr;
                  NovaRange.end_ := AttributeSpan.valueEnd attr |}).
Proof.
  unfold convertHTML.
  destruct (getOpenTag (getContent editor) pos) as [tag|];
    [|intros H Hne; injection H as <-; contradiction].
  destruct (OpenTag.attributes tag) as [attrs|] eqn:Hattrs;
    [|intros H Hne; injection H as <-; contradiction].
  destruct (eqb (toLowerCase (OpenTag.name tag)) (lit "img")) eqn:Himg;
    [|intros H Hne; injection H as <-; contradiction].
  destruct (find _ attrs) as [srcAttr|] eqn:Hfind;
    [|intros H Hne; injection H as <-; contradiction].
  apply find_first in Hfind. destruct Hfind as [before [after [-> [Hsrc Hbefore]]]].
  unfold attrValueRange.
  destruct (AttributeToken.value (AttributeSpan.token srcAttr)) as [v|] eqn:Hvalue;
    [|intros H Hne; injection H as <-; contradiction].
  intros H Hne.
  exists tag, before, srcAttr, after, v.
  split; [reflexivity|]. split; [apply eqb_eq; exact Himg|].
  split; [exact Hattrs|]. split.
  { intros a Ha Hname. specialize (Hbefore a Ha). simpl in Hbefore.
    rewrite Hname, eqb_refl in Hbefore. discriminate. }
  split; [apply eqb_eq; exact Hsrc|]. split; [exact Hvalue|].
  unfold newRange in H.
  destruct (isQuoted v).
  - destruct (AttributeSpan.valueEnd srcAttr - 1 <? AttributeSpan.valueStart srcAttr + 1);
      [discriminate|].
    simpl in H. injection H as <-. reflexivity.
  - destruct (AttributeSpan.valueEnd srcAttr <? AttributeSpan.valueStart srcAttr);
      [discriminate|].
    simpl in H. injection H as <-. reflexivity.
Qed.

(** X24: the loop of [convertCSS] never throws and looks at one property
    only, the first whose value holds the caret: the properties behind it
    do not change the outcome, and without such a property nothing
    happens. *)
Theorem convertProperties_first (editor : TextEditor) (pos : Z)
  (before after : list NovaCSSProperty.t) (p : NovaCSSProperty.t) :
  (forall q, In q before -> containsIndex (NovaCSSProperty.value q) pos = false) ->
  convertProperties editor before pos = Ok []
  /\ (containsIndex (NovaCSSProperty.value p) pos = true ->
      convertProperties editor (before ++ p :: after) pos =
      convertProperties editor [p] pos
      /\ exists effects, convertProperties editor [p] pos = Ok effects).
Proof.
  intros Hbefore. split.
  - induction before as [|q before IH]; simpl; [reflexivity|].
    rewrite (Hbefore q) by (left; reflexivity).
    apply IH. intros u Hu. apply Hbefore. right. exact Hu.
  - intros Hp. split.
    + induction before as [|q before IH]; simpl.
      * rewrite Hp. reflexivity.
      * rewrite (Hbefore q) by (left; reflexivity).
        apply IH. intros u Hu. apply Hbefore. right. exact Hu.
    + simpl. rewrite Hp.
      destruct (getURLRange_shape editor (NovaCSSProperty.valueTokens p) pos)
        as [r [Hr _]].
      rewrite Hr. simpl. destruct r; eexists; reflexivity.
Qed.

(** X25: the command performs at most one effect (one warning or one
    replacement), and none at all when the caret has no syntax or a syntax
    that is neither markup nor stylesheet; markup is tested first. *)
Theorem convertDataURLCommand_effects (editor : TextEditor) :
  (forall effects,
      convertDataURLCommand editor = Ok effects ->
      (List.length effects <= 1)%nat)
  /\ (truthyString (syntaxFromPos editor (getCaret editor)) = false ->
      convertDataURLCommand editor = Ok [])
  /\ (forall name,
        syntaxFromPos editor (getCaret editor) = Some name -> name <> [] ->
        (isHTML name = true ->
         convertDataURLCommand editor = convertHTML editor (getCaret editor))
        /\ (isHTML name = false -> isCSS name = true ->
            convertDataURLCommand editor = convertCSS editor (getCaret editor))
        /\ (isHTML name = false -> isCSS name = false ->
            convertDataURLCommand editor = Ok [])).
Proof.
  assert (Htoggle : forall r, (List.length (toggleURL editor r) <= 1)%nat).
  { intros r. unfold toggleURL.
    destruct (startsWith (getTextInRange editor r) (lit "data:")); [simpl; lia|].
    apply convertToDataURL_shape. }
  assert (Hhtml : forall pos effects,
             convertHTML editor pos = Ok effects -> (List.length effects <= 1)%nat).
  { intros pos effects. unfold convertHTML.
    destruct (getOpenTag (getContent editor) pos) as [tag|];
      [|intros H; injection H as <-; simpl; lia].
    destruct (OpenTag.attributes tag) as [attrs|];
      [|intros H; injection H as <-; simpl; lia].
    destruct (eqb (toLowerCase (OpenTag.name tag)) (lit "img"));
      [|intros H; injection H as <-; simpl; lia].
    destruct (find _ attrs) as [srcAttr|];
      [|intros H; injection H as <-; simpl; lia].
    destruct (attrValueRange srcAttr) as [[r|]|e]; simpl;
      [| |discriminate]; intros H; injection H as <-; [apply Htoggle | simpl; lia]. }
  assert (Hprops : forall props pos effects,
             convertProperties editor props pos = Ok effects ->
             (List.length effects <= 1)%nat).
  { induction props as [|p props IH]; intros pos effects; simpl.
    - intros H; injection H as <-; simpl; lia.
    - destruct (containsIndex (NovaCSSProperty.value p) pos); [|apply IH].
      destruct (getURLRange editor (NovaCSSProperty.valueTokens p) pos) as [[r|]|e];
        simpl; [| |discriminate]; intros H; injection H as <-;
        [apply Htoggle | simpl; lia]. }
  assert (Hcss : forall pos effects,
             convertCSS editor pos = Ok effects -> (List.length effects <= 1)%nat).
  { intros pos effects. unfold convertCSS.
    destruct (cssSection (getContent editor) pos true) as [section|];
      [|intros H; injection H as <-; simpl; lia].
    destruct (CSSSection.properties section) as [props|];
      [apply Hprops | intros H; injection H as <-; simpl; lia]. }
  unfold convertDataURLCommand. split; [|split].
  - intros effects.
    destruct (syntaxFromPos editor (getCaret editor)) as [[|c name]|];
      try (intros H; injection H as <-; simpl; lia).
    destruct (isHTML (c :: name)); [apply Hhtml|].
    destruct (isCSS (c :: name)); [apply Hcss|].
    intros H; injection H as <-; simpl; lia.
  - destruct (syntaxFromPos editor (getCaret editor)) as [[|c name]|];
      try discriminate; reflexivity.
  - intros name -> Hne. destruct name as [|c name]; [contradiction|].
    split; [intros ->; reflexivity|].
    split; intros -> ->; reflexivity.
Qed.

End ConversionFacts.

(** ** The added properties on concrete buffers *)

(** A completion where [extract] finds nothing keeps the tracker of the
    registry. *)
Lemma extractTracker_frame_witness :
  snd (extractTracker
         (host := Fixture.syntaxHost Fixture.noCSS Fixture.noHTML [] None)
         (Fixture.editorOf (lit "div") "html" 3) {| position := 3 |}
         (Some (Fixture.errorTracker 0 3 0 "div" 1)))
  = Some (Fixture.errorTracker 0 3 0 "div" 1).
Proof.
  apply (extractTracker_frame
           (host := Fixture.syntaxHost Fixture.noCSS Fixture.noHTML [] None)
           (Fixture.editorOf (lit "div") "html" 3) {| position := 3 |}
           (Some (Fixture.errorTracker 0 3 0 "div" 1)) _ (Ok None));
    [reflexivity | discriminate].
Defined.

(** A forced tracker with an error parse and the caret at its end is kept
    by the change listener. *)
Lemma onDidChange_existing_tracker_witness :
  onDidChange
    (host := Fixture.syntaxHost Fixture.noCSS Fixture.noHTML [] None)
    (Fixture.configOf (Some true))
    (Fixture.editorOf (lit "a)") "html" 2)
    {| lastPos := Some 1;
       store := Some {| range := (0, 2); forced := true; offset := 0;
                        abbreviation := Some (AbbreviationError (lit "a)") 1) |} |}
  = (Ok tt,
     {| lastPos := Some 2;
        store := Some {| range := (0, 2); forced := true; offset := 0;
                         abbreviation := Some (AbbreviationError (lit "a)") 1) |} |}).
Proof.
  apply (proj2 (onDidChange_existing_tracker
                  (host := Fixture.syntaxHost Fixture.noCSS Fixture.noHTML [] None)
                  (Fixture.configOf (Some true))
                  (Fixture.editorOf (lit "a)") "html" 2)
                  {| lastPos := Some 1;
                     store := Some {| range := (0, 2); forced := true; offset := 0;
                                      abbreviation :=
                                        Some (AbbreviationError (lit "a)") 1) |} |}
                  _ _ eq_refl));
    reflexivity.
Defined.

(** A paste: the caret jumps from 0 to 3, nothing is started. *)
Lemma onDidChange_no_start_witness :
  onDidChange
    (host := Fixture.syntaxHost Fixture.noCSS (Ok Fixture.insideDiv) [] None)
    (Fixture.configOf (Some true))
    (Fixture.editorOf (lit "div") "html" 3)
    {| lastPos := Some 0; store := None |}
  = (Ok tt, {| lastPos := Some 3; store := None |}).
Proof.
  apply (onDidChange_no_start
           (host := Fixture.syntaxHost Fixture.noCSS (Ok Fixture.insideDiv) [] None)
           (Fixture.configOf (Some true))
           (Fixture.editorOf (lit "div") "html" 3)
           {| lastPos := Some 0; store := None |} None eq_refl).
  left. discriminate.
Defined.

(** The window of a letter typed after a semicolon. *)
Lemma stylesheet_window_not_widened_witness :
  reWordBound (lit ";m") = true.
Proof.
  apply (proj1 (stylesheet_window_not_widened
                  (host := Fixture.syntaxHost Fixture.noCSS Fixture.noHTML [] None)
                  (Fixture.editorOf (lit ";m") "css" 2) 2 (lit ";m") eq_refl)).
Defined.

(** The span [0, 2) of the buffer [()]. *)
Lemma candidateSpan_invariant_witness :
  let span := {| spanStart := 0; spanEnd := 2; spanOffset := 0 |} in
  0 <= spanStart span
  /\ spanStart span + spanOffset span = 1 - 1
  /\ 0 <= spanOffset span <= 1
  /\ 1 <= spanEnd span <= 1 + 1
  /\ spanStart span < spanEnd span
  /\ spanEnd span <= JS.length (lit "()").
Proof.
  apply (candidateSpan_invariant
           (host := Fixture.syntaxHost Fixture.noCSS Fixture.noHTML [] None)
           (Fixture.editorOf (lit "()") "html" 1) 1
           {| spanStart := 0; spanEnd := 2; spanOffset := 0 |});
    [vm_compute; discriminate | reflexivity].
Defined.

(** The caret behind the range [3, 7) of an error parse. *)
Lemma shouldStopTracking_caret_outside_witness :
  shouldStopTracking (Fixture.errorTracker 3 7 0 "a(+)" 2) 9 = false.
Proof.
  apply (shouldStopTracking_caret_outside
           (Fixture.errorTracker 3 7 0 "a(+)" 2) (lit "a(+)") 2 9);
    [reflexivity | reflexivity | | simpl; lia | lia | right; simpl; lia].
  intros c Hin. simpl in Hin.
  repeat (destruct Hin as [<- | Hin]; [repeat split; discriminate|]).
  destruct Hin.
Defined.


(** The token [url('a.png')] at offset 4: the range of [a.png]. *)
Lemma getURLRange_body_witness :
  getURLRange
    (dataHost := DataFixture.fileHost None None None)
    (Fixture.editorOf DataFixture.urlRule "css" 10) [DataFixture.urlToken] 10
  = Ok (Some {| NovaRange.start := 9; NovaRange.end_ := 14 |}).
Proof.
  apply (proj1 (getURLRange_body
                  (dataHost := DataFixture.fileHost None None None)
                  (Fixture.editorOf DataFixture.urlRule "css" 10)
                  [] [] DataFixture.urlToken 10
                  [39%N] (lit "a.png") [39%N] (lit "")
                  (fun w (H : In w []) => match H with end)
                  eq_refl eq_refl
                  (or_intror (ex_intro _ 39%N (conj eq_refl eq_refl)))
                  (or_intror (ex_intro _ 39%N (conj eq_refl eq_refl)))
                  ltac:(discriminate)
                  ltac:(intros x Hin; simpl in Hin;
                        repeat (destruct Hin as [<- | Hin];
                                [repeat split; discriminate|]);
                        destruct Hin))).
Defined.

(** The image of [DataFixture.imgElement]: the command replaces the value
    of [src]. *)
Lemma convertHTML_img_src_witness :
  exists tag,
    getOpenTag (DataHost := DataFixture.fileHost (Some DataFixture.imgTag) None (Some 3))
      DataFixture.imgElement 12 = Some tag
    /\ OpenTag.name tag = lit "img".
Proof.
  destruct (convertHTML_img_src
              (dataHost := DataFixture.fileHost (Some DataFixture.imgTag) None (Some 3))
              (Fixture.editorOf DataFixture.imgElement "html" 12) 12
              [Replace {| NovaRange.start := 10; NovaRange.end_ := 15 |}
                 (lit "data:image/png;base64,AAEC")]
              eq_refl ltac:(discriminate))
    as [tag [before [attr [after [v [Htag [Himg _]]]]]]].
  exists tag. split; [exact Htag | exact Himg].
Defined.

(** A property that does not hold the caret, before the property of
    [DataFixture.urlToken]. *)
Lemma convertProperties_first_witness :
  convertProperties
    (dataHost := DataFixture.fileHost None None (Some 3))
    (Fixture.editorOf DataFixture.urlRule "css" 10)
    [DataFixture.otherProperty] 10
  = Ok [].
Proof.
  apply (proj1 (convertProperties_first
                  (dataHost := DataFixture.fileHost None None (Some 3))
                  (Fixture.editorOf DataFixture.urlRule "css" 10) 10
                  [DataFixture.otherProperty] [] DataFixture.urlProperty
                  ltac:(intros q [<- | []]; reflexivity))).
Defined.
